(** * goAzureKeyVault: a shallow embedding of [main.go]

    The program reads its settings from the process environment, obtains a
    bearer credential for Azure Key Vault through a file-backed token cache
    and prints three secrets.  Everything the program does to the outside
    (environment, files, identity provider, key vault, standard output, the
    logger) is made explicit: the replies of the outside are the fields of a
    [World], the mutable part is a [Machine], and every call leaves an
    [Event] in the machine's record of the run. *)

From Stdlib Require Import ZArith List Lia Ascii String.
From stdpp Require Import base option strings gmap.
Import ListNotations.

Local Open Scope string_scope.
Local Open Scope Z_scope.

(** ** Go values *)

(** A Go [error] is carried by the text of its [Error()] method; the [nil]
    error is [None] where the source returns a bare [error]. *)
Definition error : Type := string.

Definition newline : string := String "010"%char EmptyString.

(** [fmt.Sprintln] of one string operand. *)
Definition Sprintln (s : string) : string := s +:+ newline.

(** [strings.HasPrefix s p]. *)
Definition HasPrefix (s p : string) : bool := String.prefix p s.

(** [filepath.Join] of a directory and a file name made of one path element
    each, with the Unix separator. *)
Definition filepath_Join (dir name : string) : string := dir +:+ "/" +:+ name.

(** The package-level variables of [main.go]. *)
Record Globals : Type := mkGlobals {
  vaultBaseURL : string;
  userSecretName : string;
  userSecretVersion : string;
  passwordSecretName : string;
  passwordSecretVersion : string;
  subscriptionID : string;
  tenantID : string;
  clientID : string;
  clientSecret : string
}.

Definition zeroGlobals : Globals := mkGlobals "" "" "" "" "" "" "" "" "".

(** ** The SDK's data *)

(** [adal.Token].  [ExpiresOn] is the expiry in seconds since the epoch;
    [None] stands for a field that is empty or does not parse, which the SDK
    reads as an hour before the epoch. *)
Record Token : Type := mkToken {
  AccessToken : string;
  RefreshToken : string;
  ExpiresOn : option Z;
  Resource : string;
  TokenType : string
}.

Definition zeroToken : Token := mkToken "" "" None "" "".

(** [time.Duration] is an int64 of nanoseconds. *)
Definition minDuration : Z := -9223372036854775808.
Definition maxDuration : Z := 9223372036854775807.

(** [date.NewUnixTimeFromSeconds]: [time.Duration(seconds * float64(time.Second))].
    The seconds become nanoseconds in an int64; a product that does not fit
    converts, on amd64, to the smallest int64, 292 years before the epoch.
    The float64 product is exact below 2^62 nanoseconds (the year 2116);
    above it, it is rounded by at most 512 nanoseconds, which the model
    leaves out. *)
Definition duration_of_seconds (s : Z) : Z :=
  let ns := s * 1000000000 in
  if (minDuration <=? ns) && (ns <=? maxDuration) then ns else minDuration.

(** [Token.Expires]: the epoch plus that duration, here in whole seconds
    since the epoch, rounded up: the expiry is after a clock of whole seconds
    exactly when this number is greater.  It is the seconds of [ExpiresOn]
    when they are between -9223372036 and 9223372036, and -9223372036 for
    every other value. *)
Definition Expires (t : Token) : Z :=
  (duration_of_seconds (default (-3600) (ExpiresOn t)) + 999999999) / 1000000000.

(** [Token.IsExpired] at time [now]: the expiry is not after [now]. *)
Definition IsExpired (now : Z) (t : Token) : bool := negb (now <? Expires t).

Record OAuthConfig : Type := mkOAuthConfig {
  AuthorityEndpoint : string;
  AuthorizeEndpoint : string;
  TokenEndpoint : string;
  DeviceCodeEndpoint : string
}.

Definition set_AuthorizeEndpoint (c : OAuthConfig) (u : string) : OAuthConfig :=
  mkOAuthConfig (AuthorityEndpoint c) u (TokenEndpoint c) (DeviceCodeEndpoint c).

(** [adal.ServicePrincipalToken]: who asks, for which resource, with which
    secret ([None] for a token built from a manual token), and the token it
    currently holds. *)
Record ServicePrincipalToken : Type := mkSPT {
  spt_oauthConfig : OAuthConfig;
  spt_clientID : string;
  spt_secret : option string;
  spt_resource : string;
  spt_token : Token
}.

Definition set_token (s : ServicePrincipalToken) (t : Token) : ServicePrincipalToken :=
  mkSPT (spt_oauthConfig s) (spt_clientID s) (spt_secret s) (spt_resource s) t.

(** [autorest.BearerAuthorizer]: the credential handed to the client. *)
Record BearerAuthorizer : Type := NewBearerAuthorizer {
  tokenProvider : ServicePrincipalToken
}.

(** [keyvault.BaseClient]; a client fresh from [keyvault.New] has no
    credential. *)
Record BaseClient : Type := mkClient { Authorizer : option BearerAuthorizer }.

Definition keyvault_New : BaseClient := mkClient None.

(** [keyvault.SecretBundle]: [Value] and [ID] are pointers in Go. *)
Record SecretBundle : Type := mkBundle {
  Value : option string;
  ID : option string
}.

(** ** Files *)

Inductive FileContent : Type :=
| TokenJSON (t : Token)
| Garbage (bytes : string).

Record File : Type := mkFile { perm : Z; content : FileContent }.

(** The local [.env] file as [gotenv.Load] meets it: absent, present and
    not openable, opened with a line that is not an assignment or that
    exports a variable that is not set, or well formed. *)
Inductive DotEnv : Type :=
| EnvAbsent
| EnvOpenFails (reason : string)
| EnvMalformed (line : string)
| EnvUnsetExport (line : string)
| EnvGood (pairs : list (string * string)).

Inductive StatResult : Type :=
| StatOK
| StatNotExist
| StatFails (err : error).

(** ** Events of a run *)

Inductive Level : Type :=
| ErrorLevel | WarnLevel | InfoLevel | DebugLevel.

Inductive Event : Type :=
| EvStdout (text : string)
| EvLog (lvl : Level) (format : string) (args : list string)
| EvFatal (format : string) (args : list string)
| EvStat (path : string) (r : StatResult)
| EvLoadToken (path : string) (r : error + Token)
| EvTokenRequest (spt : ServicePrincipalToken) (r : error + Token)
| EvSaveToken (path : string) (mode : Z) (t : Token) (r : option error)
| EvGetSecret (base name version : string) (r : error + SecretBundle).

(** An [EvLog] is a call to the logger.  logrus writes the entry when its
    level is enabled by the level of the logger, which [setLogLevel] takes
    from LOG_LEVEL. *)
Definition severity (l : Level) : nat :=
  match l with
  | ErrorLevel => 2%nat
  | WarnLevel => 3%nat
  | InfoLevel => 4%nat
  | DebugLevel => 5%nat
  end.

Definition enabled (logger entry : Level) : bool := (severity entry <=? severity logger)%nat.

(** The calls that go over the network. *)
Definition is_network (e : Event) : bool :=
  match e with
  | EvTokenRequest _ _ | EvGetSecret _ _ _ _ => true
  | _ => false
  end.

Definition is_token_request (e : Event) : bool :=
  match e with
  | EvTokenRequest _ _ => true
  | _ => false
  end.

Definition network_calls (tr : list Event) : nat := length (List.filter is_network tr).
Definition token_requests (tr : list Event) : nat := length (List.filter is_token_request tr).

(** ** The outside world and the machine *)

(** What the outside answers: the state of [.env], the clock, the parsers
    of the SDK and of [net/url], the failures of [os.Stat], of opening and of
    writing a file at a path, the identity provider, and the secret store,
    whose answer may differ from one request of the process to the next
    (the first argument counts them).  The constructors of the SDK are known
    here only by when they refuse their arguments; what they build on
    success is written out below. *)
Record World : Type := mkWorld {
  dotenv : DotEnv;
  now : Z;
  adal_NewOAuthConfig : string -> string -> error + OAuthConfig;
  url_Parse : string -> error + string;
  stat_fault : string -> option error;
  open_fault : string -> option error;
  save_fault : string -> option error;
  manual_token_refused : OAuthConfig -> string -> string -> Token -> option error;
  principal_refused : OAuthConfig -> string -> string -> string -> option error;
  token_endpoint : ServicePrincipalToken -> error + Token;
  secret_store : nat -> string -> string -> string -> error + SecretBundle
}.

Record Machine : Type := mkMachine {
  environ : gmap string string;
  vars : Globals;
  files : gmap string File;
  logLevel : Level;
  fetches : nat
}.

Definition set_vars (g : Globals) (st : Machine) : Machine :=
  mkMachine (environ st) g (files st) (logLevel st) (fetches st).

Definition set_environ (env : gmap string string) (st : Machine) : Machine :=
  mkMachine env (vars st) (files st) (logLevel st) (fetches st).

Definition set_files (fs : gmap string File) (st : Machine) : Machine :=
  mkMachine (environ st) (vars st) fs (logLevel st) (fetches st).

Definition set_logLevel (l : Level) (st : Machine) : Machine :=
  mkMachine (environ st) (vars st) (files st) l (fetches st).

Definition count_fetch (st : Machine) : Machine :=
  mkMachine (environ st) (vars st) (files st) (logLevel st) (S (fetches st)).

(** How a call ends: it returns, the process exits ([os.Exit], [log.Fatalf])
    or it panics. *)
Inductive Outcome (A : Type) : Type :=
| Ret (a : A)
| Exit (code : Z)
| Panic (reason : string).
Arguments Ret {A} a.
Arguments Exit {A} code.
Arguments Panic {A} reason.

(** A run of a call from a machine: how it ended, the machine it left and
    the events it caused, oldest first. *)
Record Run (A : Type) : Type := mkRun {
  outcome : Outcome A;
  final : Machine;
  trace : list Event
}.
Arguments mkRun {A} outcome final trace.
Arguments outcome {A} r.
Arguments final {A} r.
Arguments trace {A} r.

Definition M (A : Type) : Type := Machine -> Run A.

#[global] Instance M_ret : MRet M := fun A a st => mkRun (Ret a) st [].

#[global] Instance M_bind : MBind M := fun A B k m st =>
  match m st with
  | mkRun (Ret a) st' tr =>
      match k a st' with
      | mkRun o st'' tr' => mkRun o st'' (tr ++ tr')
      end
  | mkRun (Exit c) st' tr => mkRun (Exit c) st' tr
  | mkRun (Panic reason) st' tr => mkRun (Panic reason) st' tr
  end.

Definition get : M Machine := fun st => mkRun (Ret st) st [].
Definition modify (f : Machine -> Machine) : M unit := fun st => mkRun (Ret tt) (f st) [].
Definition tell (e : Event) : M unit := fun st => mkRun (Ret tt) st [e].
Definition os_Exit {A} (code : Z) : M A := fun st => mkRun (Exit code) st [].
Definition panic {A} (reason : string) : M A := fun st => mkRun (Panic reason) st [].

(** [os.Getenv]: the empty string for a variable that is not set. *)
Definition os_Getenv (env : gmap string string) (key : string) : string :=
  default "" (env !! key).

(** The logger and standard output. *)
Definition log_Warnf (format : string) (args : list string) : M unit :=
  tell (EvLog WarnLevel format args).
Definition log_Printf (format : string) (args : list string) : M unit :=
  tell (EvLog InfoLevel format args).
Definition log_Debugf (format : string) (args : list string) : M unit :=
  tell (EvLog DebugLevel format args).
Definition log_Fatalf {A} (format : string) (args : list string) : M A :=
  tell (EvFatal format args) ;; os_Exit 1.
Definition fmt_Print (text : string) : M unit := tell (EvStdout text).

(** [timeTrack]: one "Timings" record at Info level; the elapsed time is
    not part of the model. *)
Definition timeTrack (name : string) : M unit :=
  tell (EvLog InfoLevel "Timings" [name]).

(** [defer d] around a body that returns: [d] runs when the body is left,
    also by a panic, and not when the process exits. *)
Definition defer {A} (d : M unit) (body : M A) : M A := fun st =>
  match body st with
  | mkRun (Ret a) st' tr =>
      match d st' with
      | mkRun (Ret _) st'' tr' => mkRun (Ret a) st'' (tr ++ tr')
      | mkRun (Exit c) st'' tr' => mkRun (Exit c) st'' (tr ++ tr')
      | mkRun (Panic reason) st'' tr' => mkRun (Panic reason) st'' (tr ++ tr')
      end
  | mkRun (Exit c) st' tr => mkRun (Exit c) st' tr
  | mkRun (Panic reason) st' tr =>
      match d st' with
      | mkRun _ st'' tr' => mkRun (Panic reason) st'' (tr ++ tr')
      end
  end.

(** A method value such as [err.Error] passed to a [%v] verb prints as an
    address. *)
Definition func_value : string := "(func() string)".

(** ** Configuration: [loadEnvVars], [parseArgs], [setLogLevel] *)

(** The error of [gotenv.Load], by the state of [.env].  A failure of
    [os.Open] is a [*PathError], whose text is the operation, the path and
    the reason. *)
Definition gotenv_Load_error (f : DotEnv) : option error :=
  match f with
  | EnvAbsent => Some "open .env: no such file or directory"
  | EnvOpenFails reason => Some ("open .env: " +:+ reason)
  | EnvMalformed line => Some ("line `" +:+ line +:+ "` doesn't match format")
  | EnvUnsetExport line => Some ("line `" +:+ line +:+ "` has an unset variable")
  | EnvGood _ => None
  end.

(** On success [gotenv.Load] sets the variables that are not set yet. *)
Definition gotenv_apply (f : DotEnv) (env : gmap string string) : gmap string string :=
  match f with
  | EnvGood pairs => env ∪ list_to_map pairs
  | _ => env
  end.

Section WithWorld.

Context (w : World).

Definition gotenv_Load : M (option error) := fun st =>
  mkRun (Ret (gotenv_Load_error (dotenv w)))
        (set_environ (gotenv_apply (dotenv w) (environ st)) st) [].

Definition loadEnvVars : M (option error) :=
  err ← gotenv_Load ;
  match err with
  | Some e => if negb (HasPrefix e "open .env:") then mret (Some e) else mret None
  | None => mret None
  end.

(** One [if x == "" { message += fmt.Sprintln(text) }]. *)
Definition report_if_empty (x text message : string) : string :=
  if String.eqb x "" then message +:+ Sprintln text else message.

Definition parseArgs : M (option error) := fun st =>
  let getenv := os_Getenv (environ st) in
  let message := "" in
  let vaultBaseURL := getenv "VAULT_BASE_URL" in
  let message := report_if_empty vaultBaseURL "VAULT_BASE_URL missing" message in
  let userSecretName := getenv "USER_SECRET_NAME" in
  let message := report_if_empty userSecretName "USER_SECRET_NAME missing" message in
  let userSecretVersion := getenv "USER_SECRET_VERSION" in
  let message := report_if_empty userSecretVersion "USER_SECRET_VERSION missing" message in
  let passwordSecretName := getenv "PASSWORD_SECRET_NAME" in
  let message := report_if_empty userSecretName "PASSWORD_SECRET_NAME missing" message in
  let passwordSecretVersion := getenv "PASSWORD_SECRET_VERSION" in
  let message := report_if_empty passwordSecretVersion "PASSWORD_SECRET_VERSION missing" message in
  let tenantID := getenv "AZ_TENANT_ID" in
  let message := report_if_empty tenantID "AZ_TENANT_ID missing" message in
  let clientID := getenv "AZ_CLIENT_ID" in
  let message := report_if_empty clientID "AZ_CLIENT_ID missing" message in
  let clientSecret := getenv "AZ_CLIENT_SECRET" in
  let message := report_if_empty clientSecret "AZ_CLIENT_SECRET missing" message in
  let st' := set_vars (mkGlobals vaultBaseURL userSecretName userSecretVersion
                         passwordSecretName passwordSecretVersion
                         (subscriptionID (vars st)) tenantID clientID clientSecret) st in
  if (0 <? String.length message)%nat
  then mkRun (Ret (Some (message +:+ "| need to be defined in .env or environment variable."))) st' []
  else mkRun (Ret None) st' [].

Definition setLogLevel : M unit :=
  st ← get ;
  let level := os_Getenv (environ st) "LOG_LEVEL" in
  if String.eqb level "INFO" then modify (set_logLevel InfoLevel)
  else if String.eqb level "WARN" then modify (set_logLevel WarnLevel)
  else if String.eqb level "DEBUG" then modify (set_logLevel DebugLevel)
  else modify (set_logLevel ErrorLevel).

(** [init] also sets the formatter and the destination of the logger:
    [log.SetOutput(os.Stdout)].  Go runs [init] before [main] and nothing is
    logged before that call, so every entry of the logger in a trace went to
    standard output, see [standard_output]. *)
Definition init : M unit :=
  err ← loadEnvVars ;
  match err with
  | Some _ => os_Exit 1
  | None => setLogLevel
  end.

(** ** Credential cache: [tryLoadCachedToken], [getKeyvaultAuthorizer] *)

Definition ActiveDirectoryEndpoint : string := "https://login.microsoftonline.com/".
Definition vaultResource : string := "https://vault.azure.net".

(** [os.Stat]: only whether it succeeds matters to the program. *)
Definition os_Stat (path : string) : M StatResult := fun st =>
  let r := match stat_fault w path with
           | Some e => StatFails e
           | None => match files st !! path with
                     | Some _ => StatOK
                     | None => StatNotExist
                     end
           end in
  mkRun (Ret r) st [EvStat path r].

(** [adal.LoadToken]: open the file and decode a token from it. *)
Definition adal_LoadToken (path : string) : M (error + Token) := fun st =>
  let r := match files st !! path with
           | None => inl ("failed to open file (" +:+ path +:+ ") while loading token: no such file or directory")
           | Some f =>
               match open_fault w path with
               | Some e => inl ("failed to open file (" +:+ path +:+ ") while loading token: " +:+ e)
               | None =>
                   match content f with
                   | TokenJSON t => inr t
                   | Garbage _ => inl ("failed to decode contents of file (" +:+ path +:+ ") into Token representation")
                   end
               end
           end in
  mkRun (Ret r) st [EvLoadToken path r].

(** [adal.SaveToken]: on success the file at [path] holds the token and has
    the given mode; a failure leaves the files as they were. *)
Definition adal_SaveToken (path : string) (mode : Z) (t : Token) : M (option error) := fun st =>
  match save_fault w path with
  | Some e => mkRun (Ret (Some e)) st [EvSaveToken path mode t (Some e)]
  | None => mkRun (Ret None)
                  (set_files (<[path := mkFile mode (TokenJSON t)]> (files st)) st)
                  [EvSaveToken path mode t None]
  end.

Definition adal_NewServicePrincipalTokenFromManualToken
    (cfg : OAuthConfig) (clientID resource : string) (t : Token) : error + ServicePrincipalToken :=
  match manual_token_refused w cfg clientID resource t with
  | Some e => inl e
  | None => inr (mkSPT cfg clientID None resource t)
  end.

Definition adal_NewServicePrincipalToken
    (cfg : OAuthConfig) (clientID secret resource : string) : error + ServicePrincipalToken :=
  match principal_refused w cfg clientID secret resource with
  | Some e => inl e
  | None => inr (mkSPT cfg clientID (Some secret) resource zeroToken)
  end.

(** [spt.Refresh]: the token request.  The token of [spt] is replaced when
    the identity provider answers with one and kept otherwise. *)
Definition Refresh (spt : ServicePrincipalToken) : M (ServicePrincipalToken * option error) := fun st =>
  let r := token_endpoint w spt in
  mkRun (Ret match r with
             | inl e => (spt, Some e)
             | inr t => (set_token spt t, None)
             end) st [EvTokenRequest spt r].

Definition tryLoadCachedToken (cachePath : string) : M (option Token * option error) :=
  defer (timeTrack "tryLoadCachedToken")
    (s ← os_Stat cachePath ;
     match s with
     | StatNotExist =>
         log_Printf "Cache path does not exist. Path=%q" [cachePath] ;;
         mret (None, None)
     | StatFails err => mret (None, Some err)
     | StatOK =>
         r ← adal_LoadToken cachePath ;
         match r with
         | inl err => mret (None, Some ("Failed to load token from file: " +:+ err))
         | inr token => mret (Some token, None)
         end
     end).

Definition getKeyvaultAuthorizer : M (error + BearerAuthorizer) :=
  st ← get ;
  let g := vars st in
  match adal_NewOAuthConfig w ActiveDirectoryEndpoint (tenantID g) with
  | inl err => mret (inl ("Could not create oauthConfig: " +:+ err))
  | inr oauthConfig =>
  match url_Parse w ("https://login.windows.net/" +:+ tenantID g +:+ "/oauth2/token") with
  | inl err => mret (inl ("Could not parse the Authorize Endpoint URL: " +:+ err))
  | inr updatedAuthorizeEndpoint =>
  let oauthConfig := set_AuthorizeEndpoint oauthConfig updatedAuthorizeEndpoint in
  let cachePath := filepath_Join "cache" (clientID g +:+ ".token.json") in
  loaded ← tryLoadCachedToken cachePath ;
  rawToken ← match loaded with
             | (_, Some _) =>
                 log_Warnf "Could not load Raw Token from file: %v" [func_value] ;;
                 mret None
             | (rawToken, None) => mret rawToken
             end ;
  let fresh : M (error + BearerAuthorizer) :=
    defer (timeTrack "NewServicePrincipalToken")
      match adal_NewServicePrincipalToken oauthConfig (clientID g) (clientSecret g) vaultResource with
      | inl err => mret (inl err)
      | inr spt =>
          refreshed ← Refresh spt ;
          let spt := fst refreshed in
          match snd refreshed with
          | Some _ => log_Warnf "Could not refresh token: %v" [func_value]
          | None => mret tt
          end ;;
          let adRawToken := spt_token spt in
          err ← adal_SaveToken cachePath 384 adRawToken ;
          match err with
          | Some e => log_Warnf "Could not save token to cache path=%q: %v" [cachePath; e]
          | None => mret tt
          end ;;
          log_Debugf "Saved token to cache. path=%q" [cachePath] ;;
          mret (inr (NewBearerAuthorizer spt))
      end in
  match rawToken with
  | Some token =>
      if negb (IsExpired (now w) token)
      then defer (timeTrack "NewServicePrincipalTokenFromManualToken")
             match adal_NewServicePrincipalTokenFromManualToken
                     oauthConfig (clientID g) vaultResource token with
             | inl err => mret (inl err)
             | inr spt => mret (inr (NewBearerAuthorizer spt))
             end
      else fresh
  | None => fresh
  end
  end
  end.

Definition getKeysClient : M (BaseClient * option error) :=
  let vmClient := keyvault_New in
  r ← getKeyvaultAuthorizer ;
  match r with
  | inl err => mret (vmClient, Some err)
  | inr authorizer => mret (mkClient (Some authorizer), None)
  end.

(** ** Secret client: [getSecret] *)

(** [cli.GetSecret]: one request to the secret store. *)
Definition cli_GetSecret (cli : BaseClient) (base name version : string)
    : M (error + SecretBundle) := fun st =>
  let r := secret_store w (fetches st) base name version in
  mkRun (Ret r) (count_fetch st) [EvGetSecret base name version r].

(** [*secretBundle.Value] panics on a nil pointer. *)
Definition getSecret (cli : BaseClient) (vaultBaseURL secretName secretVersion : string)
    : M (string * option error) :=
  r ← cli_GetSecret cli vaultBaseURL secretName secretVersion ;
  match r with
  | inl err => mret ("", Some err)
  | inr secretBundle =>
      match Value secretBundle with
      | Some v => mret (v, None)
      | None => panic "runtime error: invalid memory address or nil pointer dereference"
      end
  end.

(** ** Orchestrator: [main] *)

Definition warn_secret (name : string) (err : option error) : M unit :=
  match err with
  | Some e => log_Warnf "Error when trying to retrieve secret %s. Error: %v" [name; e]
  | None => mret tt
  end.

Definition main : M unit :=
  err ← parseArgs ;
  match err with
  | Some e => log_Fatalf "failed to parse args: %s\n" [e]
  | None =>
  fmt_Print (Sprintln "Getting Key Vault") ;;
  c ← getKeysClient ;
  match snd c with
  | Some e => log_Fatalf "Could not get a Key Vault Client. %v" [e]
  | None =>
  let cli := fst c in
  st ← get ;
  let g := vars st in
  username ← getSecret cli (vaultBaseURL g) (userSecretName g) (userSecretVersion g) ;
  warn_secret (userSecretName g) (snd username) ;;
  fmt_Print ("Username Value= " +:+ fst username +:+ newline) ;;
  fmt_Print (Sprintln "--- Password with no version set (current) ---") ;;
  password ← getSecret cli (vaultBaseURL g) (passwordSecretName g) "" ;
  warn_secret (passwordSecretName g) (snd password) ;;
  fmt_Print ("  Password Value= " +:+ fst password +:+ newline) ;;
  fmt_Print ("--- Password version " +:+ passwordSecretVersion g +:+ " ---" +:+ newline) ;;
  password ← getSecret cli (vaultBaseURL g) (passwordSecretName g) (passwordSecretVersion g) ;
  warn_secret (passwordSecretName g) (snd password) ;;
  fmt_Print ("  Password Value= " +:+ fst password +:+ newline)
  end
  end.

(** The process: [init], then [main]. *)
Definition program : M unit := init ;; main.

End WithWorld.

(** The exit status of the process: zero when [main] returns, the argument
    of [os.Exit], and 2 after a panic. *)
Definition exit_status {A} (r : Run A) : Z :=
  match outcome r with
  | Ret _ => 0
  | Exit c => c
  | Panic _ => 2
  end.

(** ** The earlier copy of the program

    The repository keeps an earlier copy of [main.go] with the same token
    cache.  It differs where an error is met: a cache that cannot be read or
    written makes [getKeyvaultToken] fail, and [onErrorFail] ends the process
    at the first secret that cannot be fetched. *)
Module Part001.
Section WithWorld.

Context (w : World).

Definition log_Printf (format : string) (args : list string) : M unit :=
  tell (EvLog InfoLevel format args).

Definition timeTrack (name : string) : M unit :=
  log_Printf "%s took %s" [name].

Definition onErrorFail (err : option error) (message : string) : M unit :=
  match err with
  | Some e => fmt_Print (message +:+ ": " +:+ e) ;; os_Exit 1
  | None => mret tt
  end.

Definition LoadEnvVars : M (option error) := loadEnvVars w.

Definition parseArgs : M (option error) :=
  err ← LoadEnvVars ;
  match err with
  | Some e => mret (Some e)
  | None => parseArgs
  end.

Definition tryLoadCachedToken (cachePath : string) : M (option Token * option error) :=
  s ← os_Stat w cachePath ;
  match s with
  | StatNotExist =>
      log_Printf "Cache path does not exist. Path=%q" [cachePath] ;;
      mret (None, None)
  | StatFails err => mret (None, Some err)
  | StatOK =>
      r ← adal_LoadToken w cachePath ;
      match r with
      | inl err => mret (None, Some ("Failed to load token from file: " +:+ err))
      | inr token => mret (Some token, None)
      end
  end.

Definition getKeyvaultToken : M (error + BearerAuthorizer) :=
  st ← get ;
  let g := vars st in
  match adal_NewOAuthConfig w ActiveDirectoryEndpoint (tenantID g) with
  | inl err => mret (inl err)
  | inr oauthConfig =>
  match url_Parse w ("https://login.windows.net/" +:+ tenantID g +:+ "/oauth2/token") with
  | inl _ => panic "runtime error: invalid memory address or nil pointer dereference"
  | inr updatedAuthorizeEndpoint =>
  let oauthConfig := set_AuthorizeEndpoint oauthConfig updatedAuthorizeEndpoint in
  let cachePath := filepath_Join "cache" (clientID g +:+ ".token.json") in
  loaded ← tryLoadCachedToken cachePath ;
  match snd loaded with
  | Some err => mret (inl err)
  | None =>
  let rawToken := fst loaded in
  let fresh : M (error + BearerAuthorizer) :=
    defer (timeTrack "No File")
      match adal_NewServicePrincipalToken w oauthConfig (clientID g) (clientSecret g) vaultResource with
      | inl err => mret (inl err)
      | inr spt =>
          refreshed ← Refresh w spt ;
          let spt := fst refreshed in
          match snd refreshed with
          | Some e => log_Printf "Refresh token failed" [e]
          | None => mret tt
          end ;;
          let adRawToken := spt_token spt in
          err ← adal_SaveToken w cachePath 384 adRawToken ;
          match err with
          | Some e => mret (inl e)
          | None =>
              log_Printf "Saved token to cache. path=%q" [cachePath] ;;
              mret (inr (NewBearerAuthorizer spt))
          end
      end in
  match rawToken with
  | Some token =>
      if negb (IsExpired (now w) token)
      then defer (timeTrack "From File")
             match adal_NewServicePrincipalTokenFromManualToken w
                     oauthConfig (clientID g) vaultResource token with
             | inl err => mret (inl err)
             | inr spt => mret (inr (NewBearerAuthorizer spt))
             end
      else fresh
  | None => fresh
  end
  end
  end
  end.

Definition getKeysClient : M (BaseClient * option error) :=
  let vmClient := keyvault_New in
  r ← getKeyvaultToken ;
  match r with
  | inl err => mret (vmClient, Some err)
  | inr token => mret (mkClient (Some token), None)
  end.

Definition main : M unit :=
  err ← parseArgs ;
  match err with
  | Some e => log_Fatalf "failed to parse args: %s\n" [e]
  | None =>
  fmt_Print (Sprintln "Getting Key Vault") ;;
  c ← getKeysClient ;
  onErrorFail (snd c) "getKeysClient failed" ;;
  let cli := fst c in
  st ← get ;
  let g := vars st in
  username ← getSecret w cli (vaultBaseURL g) (userSecretName g) (userSecretVersion g) ;
  onErrorFail (snd username) "getUsername failed" ;;
  fmt_Print ("Username Value= " +:+ fst username +:+ newline) ;;
  fmt_Print (Sprintln "--- Password with no version set (current) ---") ;;
  password ← getSecret w cli (vaultBaseURL g) (passwordSecretName g) "" ;
  onErrorFail (snd password) "getPassword failed" ;;
  fmt_Print ("  Password Value= " +:+ fst password +:+ newline) ;;
  fmt_Print ("--- Password version " +:+ passwordSecretVersion g +:+ " ---" +:+ newline) ;;
  password ← getSecret w cli (vaultBaseURL g) (passwordSecretName g) (passwordSecretVersion g) ;
  onErrorFail (snd password) "getPassword failed" ;;
  fmt_Print ("  Password Value= " +:+ fst password +:+ newline)
  end.

End WithWorld.
End Part001.

(** ** Reading a run *)

(** [Contains s sub]: [sub] occurs in [s]. *)
Definition Contains (s sub : string) : Prop :=
  exists before after, s = before +:+ sub +:+ after.

(** The path of the token cache for the client of the global variables. *)
Definition cachePath (g : Globals) : string :=
  filepath_Join "cache" (clientID g +:+ ".token.json").

Definition is_fetch (e : Event) : bool :=
  match e with
  | EvGetSecret _ _ _ _ => true
  | _ => false
  end.

(** The secret fetches of a run, in order: what was asked for and whether
    the answer was an error. *)
Definition fetch_of (e : Event) : string * string * string * option error :=
  match e with
  | EvGetSecret base name version (inl err) => (base, name, version, Some err)
  | EvGetSecret base name version (inr _) => (base, name, version, None)
  | _ => ("", "", "", None)
  end.

Definition fetched (tr : list Event) : list (string * string * string * option error) :=
  map fetch_of (List.filter is_fetch tr).

(** The warning of [getKeyvaultAuthorizer] for a cache that cannot be read. *)
Definition load_warning : Event :=
  EvLog WarnLevel "Could not load Raw Token from file: %v" [func_value].

(** The warning [main] logs for a fetch that failed. *)
Definition fetch_warning (f : string * string * string * option error) : list Event :=
  match f with
  | (_, name, _, Some err) =>
      [EvLog WarnLevel "Error when trying to retrieve secret %s. Error: %v" [name; err]]
  | (_, _, _, None) => []
  end.

(** The events that are such warnings. *)
Definition is_fetch_warning (e : Event) : bool :=
  match e with
  | EvLog WarnLevel format _ =>
      String.eqb format "Error when trying to retrieve secret %s. Error: %v"
  | _ => false
  end.

Definition request_of (f : string * string * string * option error) : string * string * string :=
  fst f.

(** No successful answer of the secret store lacks its value. *)
Definition values_present (w : World) : Prop :=
  forall n base name version bundle,
    secret_store w n base name version = inr bundle -> Value bundle <> None.

(** An error that one of the SDK's constructors returned. *)
Definition sdk_refusal (w : World) (g : Globals) (err : error) : Prop :=
  (exists e, adal_NewOAuthConfig w ActiveDirectoryEndpoint (tenantID g) = inl e /\
             err = "Could not create oauthConfig: " +:+ e) \/
  (exists e, url_Parse w ("https://login.windows.net/" +:+ tenantID g +:+ "/oauth2/token") = inl e /\
             err = "Could not parse the Authorize Endpoint URL: " +:+ e) \/
  (exists cfg t, manual_token_refused w cfg (clientID g) vaultResource t = Some err) \/
  (exists cfg, principal_refused w cfg (clientID g) (clientSecret g) vaultResource = Some err).

(** The SDK builds a service principal token for the client and its secret. *)
Definition principal_accepted (w : World) (g : Globals) : Prop :=
  forall cfg, principal_refused w cfg (clientID g) (clientSecret g) vaultResource = None.

(** ** Sample worlds and machines *)

Definition sample_config : OAuthConfig :=
  mkOAuthConfig "https://login.microsoftonline.com/t"
                "https://login.microsoftonline.com/t/oauth2/authorize"
                "https://login.microsoftonline.com/t/oauth2/token"
                "https://login.microsoftonline.com/t/oauth2/devicecode".

Definition sample_token : Token :=
  mkToken "access-1" "" (Some 2000) "https://vault.azure.net" "Bearer".

Definition stale_token : Token :=
  mkToken "access-0" "" (Some 500) "https://vault.azure.net" "Bearer".

(** A world at time 1000 in which the SDK builds what it is asked for; the
    [.env] file, the identity provider, the write of the cache and the secret
    store are as given. *)
Definition sample_world (env_file : DotEnv) (idp : error + Token)
    (write_fault : option error)
    (store : nat -> string -> string -> string -> error + SecretBundle) : World :=
  mkWorld env_file 1000
          (fun _ _ => inr sample_config) (fun u => inr u)
          (fun _ => None) (fun _ => None) (fun _ => write_fault)
          (fun _ _ _ _ => None) (fun _ _ _ _ => None)
          (fun _ => idp) store.

Definition store_ok : nat -> string -> string -> string -> error + SecretBundle :=
  fun _ _ name _ => inr (mkBundle (Some ("value of " +:+ name)) None).

(** The second fetch fails, the others succeed. *)
Definition store_second_fails : nat -> string -> string -> string -> error + SecretBundle :=
  fun n _ name _ =>
    match n with
    | 1%nat => inl "keyvault.BaseClient#GetSecret: Failure responding to request: StatusCode=404"
    | _ => inr (mkBundle (Some ("value of " +:+ name)) None)
    end.

Definition store_no_value : nat -> string -> string -> string -> error + SecretBundle :=
  fun _ _ _ _ => inr (mkBundle None None).

Definition calm_world : World := sample_world EnvAbsent (inr sample_token) None store_ok.

Definition rejecting_world : World :=
  sample_world EnvAbsent (inl "adal: Refresh request failed. Status Code = '401'") None store_ok.

Definition readonly_world : World :=
  sample_world EnvAbsent (inr sample_token) (Some "mkdir cache: permission denied") store_ok.

Definition flaky_store_world : World :=
  sample_world EnvAbsent (inr sample_token) None store_second_fails.

Definition locked_dotenv_world : World :=
  sample_world (EnvOpenFails "permission denied") (inr sample_token) None store_ok.

Definition env_full : gmap string string :=
  list_to_map
    [("VAULT_BASE_URL", "https://gokeyvaulttest1.vault.azure.net");
     ("USER_SECRET_NAME", "UserName");
     ("USER_SECRET_VERSION", "aef49f415a2a4eb0ac5a21155a7cbf24");
     ("PASSWORD_SECRET_NAME", "Password");
     ("PASSWORD_SECRET_VERSION", "8142a26d3a02425282da3da565f4a952");
     ("AZ_TENANT_ID", "t");
     ("AZ_CLIENT_ID", "c");
     ("AZ_CLIENT_SECRET", "s")].

Definition ready_vars : Globals :=
  mkGlobals "https://gokeyvaulttest1.vault.azure.net" "UserName"
            "aef49f415a2a4eb0ac5a21155a7cbf24" "Password"
            "8142a26d3a02425282da3da565f4a952" "" "t" "c" "s".

(** A machine before [main], with the given environment and files. *)
Definition boot (env : gmap string string) (fs : gmap string File) : Machine :=
  mkMachine env zeroGlobals fs ErrorLevel 0.

(** A machine after [parseArgs] accepted [env_full]. *)
Definition configured (fs : gmap string File) : Machine :=
  mkMachine env_full ready_vars fs ErrorLevel 0.

Definition cache_with (t : Token) : gmap string File :=
  {[ "cache/c.token.json" := mkFile 384 (TokenJSON t) ]}.

Definition corrupt_cache : gmap string File :=
  {[ "cache/c.token.json" := mkFile 384 (Garbage "{") ]}.

(** The service principal token of the samples before its refresh. *)
Definition sample_principal : ServicePrincipalToken :=
  mkSPT (set_AuthorizeEndpoint sample_config "https://login.windows.net/t/oauth2/token")
        "c" (Some "s") vaultResource zeroToken.

(** ** The first copy of the program

    The first copy (the other unnamed file) has no token cache and asks for
    no token itself: the credential it builds holds an empty token, which the
    SDK fills at the first request to the vault.  [getKeysClient] drops the
    error of [getKeyvaultToken].  These two functions are what is modelled
    of it. *)
Module Part000.
Section WithWorld.

Context (w : World).

(** [config] and [updatedAuthorizeEndpoint] are dereferenced before the
    error of [url.Parse] is looked at, and the error of [NewOAuthConfig] is
    overwritten: a nil pointer of either panics. *)
Definition getKeyvaultToken : M (error + BearerAuthorizer) :=
  st ← get ;
  let g := vars st in
  match adal_NewOAuthConfig w ActiveDirectoryEndpoint (tenantID g) with
  | inl _ => panic "runtime error: invalid memory address or nil pointer dereference"
  | inr config =>
  match url_Parse w ("https://login.windows.net/" +:+ tenantID g +:+ "/oauth2/token") with
  | inl _ => panic "runtime error: invalid memory address or nil pointer dereference"
  | inr updatedAuthorizeEndpoint =>
  let config := set_AuthorizeEndpoint config updatedAuthorizeEndpoint in
  match adal_NewServicePrincipalToken w config (clientID g) (clientSecret g) vaultResource with
  | inl err => mret (inl err)
  | inr spt => mret (inr (NewBearerAuthorizer spt))
  end
  end
  end.

Definition getKeysClient : M BaseClient :=
  r ← getKeyvaultToken ;
  match r with
  | inl _ => mret keyvault_New
  | inr token => mret (mkClient (Some token))
  end.

End WithWorld.
End Part000.

(** ** More ways to read a run *)

(** The variables that [parseArgs] tests, with the text it reports for each. *)
Definition checked_variables : list string :=
  ["VAULT_BASE_URL"; "USER_SECRET_NAME"; "USER_SECRET_VERSION"; "PASSWORD_SECRET_VERSION";
   "AZ_TENANT_ID"; "AZ_CLIENT_ID"; "AZ_CLIENT_SECRET"].

Definition config_suffix : string := "| need to be defined in .env or environment variable.".

Definition is_save (e : Event) : bool :=
  match e with
  | EvSaveToken _ _ _ _ => true
  | _ => false
  end.

Definition save_attempts (tr : list Event) : nat := length (List.filter is_save tr).

(** What a run printed with [fmt], in order.  In the earlier copies, whose
    [log] is the standard package and writes to standard error, this is the
    whole of standard output; [main.go] sends its logger to standard output
    as well, see [standard_output]. *)
Definition stdout (tr : list Event) : list string :=
  flat_map (fun e => match e with EvStdout text => [text] | _ => [] end) tr.

(** What [main] prints as the value of a secret: the value of the answer,
    and nothing for a fetch that failed. *)
Definition printed_value (r : error + SecretBundle) : string :=
  match r with
  | inl _ => ""
  | inr bundle => default "" (Value bundle)
  end.

(** The errors of [gotenv.Load] that [loadEnvVars] returns. *)
Definition dotenv_rejected (f : DotEnv) : bool :=
  match f with
  | EnvMalformed _ | EnvUnsetExport _ => true
  | _ => false
  end.

(** More sample worlds. *)
Definition unparsable_world : World :=
  mkWorld EnvAbsent 1000
          (fun _ _ => inr sample_config) (fun _ => inl "parse: invalid URL escape")
          (fun _ => None) (fun _ => None) (fun _ => None)
          (fun _ _ _ _ => None) (fun _ _ _ _ => None)
          (fun _ => inr sample_token) store_ok.

Definition store_down : nat -> string -> string -> string -> error + SecretBundle :=
  fun _ _ _ _ => inl "keyvault.BaseClient#GetSecret: Failure sending request".

Definition store_down_world : World :=
  sample_world EnvAbsent (inr sample_token) None store_down.

Definition no_value_world : World :=
  sample_world EnvAbsent (inr sample_token) None store_no_value.

Definition malformed_dotenv_world : World :=
  sample_world (EnvMalformed "VAULT BASE URL") (inr sample_token) None store_ok.

Definition good_dotenv_world : World :=
  sample_world (EnvGood [("AZ_TENANT_ID", "other"); ("LOG_LEVEL", "WARN")])
               (inr sample_token) None store_ok.

Definition refusing_world : World :=
  mkWorld EnvAbsent 1000
          (fun _ _ => inr sample_config) (fun u => inr u)
          (fun _ => None) (fun _ => None) (fun _ => None)
          (fun _ _ _ _ => None) (fun _ _ _ _ => Some "parameter 'secret' cannot be empty")
          (fun _ => inr sample_token) store_ok.

(** ** Definitions for the edge cases *)

(** A token whose seconds do not fit a [time.Duration]. *)
Definition far_future_token : Token :=
  mkToken "access-2" "" (Some 9223372037) "https://vault.azure.net" "Bearer".

(** A world whose identity provider issues a token that has expired
    already. *)
Definition stale_issuer_world : World :=
  sample_world EnvAbsent (inr stale_token) None store_ok.

(** The first fetch fails; the later answers come without their value. *)
Definition store_fails_then_no_value : nat -> string -> string -> string -> error + SecretBundle :=
  fun n _ _ _ =>
    match n with
    | 0%nat => inl "keyvault.BaseClient#GetSecret: Failure responding to request: StatusCode=404"
    | _ => inr (mkBundle None None)
    end.

Definition failure_then_no_value_world : World :=
  sample_world EnvAbsent (inr sample_token) None store_fails_then_no_value.

(** The three requests of [main], in order. *)
Definition secret_requests (g : Globals) : list (string * string * string) :=
  [ (vaultBaseURL g, userSecretName g, userSecretVersion g);
    (vaultBaseURL g, passwordSecretName g, "");
    (vaultBaseURL g, passwordSecretName g, passwordSecretVersion g) ].

(** Standard output of [main.go].  [init] sends the logger to [os.Stdout]
    ([log.SetOutput]), so besides what [fmt] prints every entry of the logger
    that its level enables is a line of standard output, and so is every
    fatal entry, which no level of [setLogLevel] disables. *)
Definition on_stdout (logger : Level) (e : Event) : bool :=
  match e with
  | EvStdout _ => true
  | EvFatal _ _ => true
  | EvLog l _ _ => enabled logger l
  | _ => false
  end.

Definition standard_output (logger : Level) (tr : list Event) : list Event :=
  List.filter (on_stdout logger) tr.

(** What one fetch of [main] adds to standard output: the warning, when the
    fetch failed and warnings are enabled, and the line with the value. *)
Definition secret_output (logger : Level) (name label : string) (r : error + SecretBundle)
    : list Event :=
  match r with
  | inl e =>
      if enabled logger WarnLevel
      then [EvLog WarnLevel "Error when trying to retrieve secret %s. Error: %v" [name; e]]
      else []
  | inr _ => []
  end ++ [EvStdout (label +:+ printed_value r +:+ newline)].

(** * Properties *)

(** ** Strings *)

Lemma string_app_assoc (a b c : string) : (a +:+ b) +:+ c = a +:+ (b +:+ c).
Proof.
  induction a as [|ch a IH]; [reflexivity |].
  change (String ch ((a +:+ b) +:+ c) = String ch (a +:+ (b +:+ c))).
  now rewrite IH.
Qed.

Lemma string_length_app (a b : string) :
  String.length (a +:+ b) = (String.length a + String.length b)%nat.
Proof.
  induction a as [|ch a IH]; [reflexivity |].
  change (S (String.length (a +:+ b)) = S (String.length a + String.length b)).
  now rewrite IH.
Qed.

Lemma Contains_app_r (s sub t : string) : Contains s sub -> Contains (s +:+ t) sub.
Proof.
  intros (before & after & ->).
  exists before, (after +:+ t).
  now rewrite !string_app_assoc.
Qed.

Lemma Contains_suffix_line (s text : string) : Contains (s +:+ Sprintln text) text.
Proof.
  exists s, newline. reflexivity.
Qed.

Lemma Contains_nonempty (s sub : string) :
  Contains s sub -> sub <> "" -> (0 <? String.length s)%nat = true.
Proof.
  intros (before & after & ->) Hsub.
  apply Nat.ltb_lt.
  rewrite !string_length_app.
  destruct sub; [congruence | simpl; lia].
Qed.

(** ** Configuration loader *)

Lemma report_if_empty_keeps (x text message sub : string) :
  Contains message sub -> Contains (report_if_empty x text message) sub.
Proof.
  intros H. unfold report_if_empty.
  destruct (String.eqb x ""); [now apply Contains_app_r | exact H].
Qed.

Lemma report_if_empty_reports (text message : string) :
  Contains (report_if_empty "" text message) text.
Proof.
  unfold report_if_empty. simpl. apply Contains_suffix_line.
Qed.

(** What [parseArgs] returns once its message is known to mention [sub]. *)
Lemma parseArgs_reports (st : Machine) (sub : string) :
  sub <> "" ->
  (forall m0 : string,
      let getenv := os_Getenv (environ st) in
      Contains
        (report_if_empty (getenv "AZ_CLIENT_SECRET") "AZ_CLIENT_SECRET missing"
          (report_if_empty (getenv "AZ_CLIENT_ID") "AZ_CLIENT_ID missing"
            (report_if_empty (getenv "AZ_TENANT_ID") "AZ_TENANT_ID missing"
              (report_if_empty (getenv "PASSWORD_SECRET_VERSION") "PASSWORD_SECRET_VERSION missing"
                (report_if_empty (getenv "USER_SECRET_NAME") "PASSWORD_SECRET_NAME missing"
                  (report_if_empty (getenv "USER_SECRET_VERSION") "USER_SECRET_VERSION missing"
                    (report_if_empty (getenv "USER_SECRET_NAME") "USER_SECRET_NAME missing"
                      (report_if_empty (getenv "VAULT_BASE_URL") "VAULT_BASE_URL missing" m0))))))))
        sub) ->
  exists msg, outcome (parseArgs st) = Ret (Some msg) /\ Contains msg sub.
Proof.
  intros Hsub H. specialize (H ""). cbv zeta in H.
  unfold parseArgs. cbv zeta.
  rewrite (Contains_nonempty _ _ H Hsub).
  eexists. split; [reflexivity |].
  now apply Contains_app_r.
Qed.

(** C2, at the failing input: with every variable set except
    PASSWORD_SECRET_NAME, [parseArgs] reports nothing and returns no error;
    and with only USER_SECRET_NAME unset it reports PASSWORD_SECRET_NAME, which
    is set, as missing. *)
Theorem parseArgs_misses_password_secret_name :
  os_Getenv (delete "PASSWORD_SECRET_NAME" env_full) "PASSWORD_SECRET_NAME" = "" /\
  outcome (parseArgs (boot (delete "PASSWORD_SECRET_NAME" env_full) ∅)) = Ret None /\
  os_Getenv (delete "USER_SECRET_NAME" env_full) "PASSWORD_SECRET_NAME" = "Password" /\
  outcome (parseArgs (boot (delete "USER_SECRET_NAME" env_full) ∅)) =
    Ret (Some ("USER_SECRET_NAME missing" +:+ newline +:+
               "PASSWORD_SECRET_NAME missing" +:+ newline +:+
               "| need to be defined in .env or environment variable.")).
Proof.
  repeat split; vm_compute; reflexivity.
Qed.

(** The same for every environment: what [parseArgs] returns does not depend
    on PASSWORD_SECRET_NAME. *)
Lemma parseArgs_ignores_password_secret_name (st : Machine) (v : string) :
  outcome (parseArgs (set_environ (<["PASSWORD_SECRET_NAME" := v]> (environ st)) st)) =
  outcome (parseArgs st).
Proof.
  unfold parseArgs, os_Getenv. cbn [environ set_environ].
  rewrite !lookup_insert_ne by discriminate.
  cbv zeta.
  match goal with |- context [if ?b then _ else _] => destruct b end; reflexivity.
Qed.

(** C7, as the claim states it, fails: with every variable set except
    USER_SECRET_VERSION, [parseArgs] returns an error that reports the
    version as missing. *)
Lemma parseArgs_rejects_empty_version :
  os_Getenv (delete "USER_SECRET_VERSION" env_full) "USER_SECRET_VERSION" = "" /\
  outcome (parseArgs (boot (delete "USER_SECRET_VERSION" env_full) ∅)) =
    Ret (Some ("USER_SECRET_VERSION missing" +:+ newline +:+
               "| need to be defined in .env or environment variable.")).
Proof.
  split; vm_compute; reflexivity.
Qed.

(** C7, amended: the secret versions are required.  Whenever
    USER_SECRET_VERSION or PASSWORD_SECRET_VERSION is empty, [parseArgs]
    returns an error, and its message reports each empty version as
    missing. *)
Theorem parseArgs_requires_versions (st : Machine) :
  os_Getenv (environ st) "USER_SECRET_VERSION" = "" \/
  os_Getenv (environ st) "PASSWORD_SECRET_VERSION" = "" ->
  exists msg,
    outcome (parseArgs st) = Ret (Some msg) /\
    (os_Getenv (environ st) "USER_SECRET_VERSION" = "" ->
     Contains msg "USER_SECRET_VERSION missing") /\
    (os_Getenv (environ st) "PASSWORD_SECRET_VERSION" = "" ->
     Contains msg "PASSWORD_SECRET_VERSION missing").
Proof.
  intros H.
  assert (Hu : os_Getenv (environ st) "USER_SECRET_VERSION" = "" ->
               exists msg, outcome (parseArgs st) = Ret (Some msg) /\
                           Contains msg "USER_SECRET_VERSION missing").
  { intros E. apply parseArgs_reports; [discriminate |].
    intros m0 getenv. subst getenv. rewrite E.
    do 5 apply report_if_empty_keeps. apply report_if_empty_reports. }
  assert (Hp : os_Getenv (environ st) "PASSWORD_SECRET_VERSION" = "" ->
               exists msg, outcome (parseArgs st) = Ret (Some msg) /\
                           Contains msg "PASSWORD_SECRET_VERSION missing").
  { intros E. apply parseArgs_reports; [discriminate |].
    intros m0 getenv. subst getenv. rewrite E.
    do 3 apply report_if_empty_keeps. apply report_if_empty_reports. }
  destruct H as [E | E].
  - destruct (Hu E) as (msg & Hmsg & Hc).
    exists msg. split; [exact Hmsg |]. split; [auto |].
    intros E'. destruct (Hp E') as (msg' & Hmsg' & Hc'). congruence.
  - destruct (Hp E) as (msg & Hmsg & Hc).
    exists msg. split; [exact Hmsg |]. split; [| auto].
    intros E'. destruct (Hu E') as (msg' & Hmsg' & Hc'). congruence.
Qed.

Lemma parseArgs_requires_versions_witness :
  (os_Getenv (environ (boot (delete "USER_SECRET_VERSION" env_full) ∅)) "USER_SECRET_VERSION" = "" \/
   os_Getenv (environ (boot (delete "USER_SECRET_VERSION" env_full) ∅)) "PASSWORD_SECRET_VERSION" = "") /\
  exists msg,
    outcome (parseArgs (boot (delete "USER_SECRET_VERSION" env_full) ∅)) = Ret (Some msg) /\
    Contains msg "USER_SECRET_VERSION missing".
Proof.
  assert (H : os_Getenv (environ (boot (delete "USER_SECRET_VERSION" env_full) ∅))
                "USER_SECRET_VERSION" = "") by (vm_compute; reflexivity).
  split; [left; exact H |].
  destruct (parseArgs_requires_versions _ (or_introl H)) as (msg & Hmsg & Hu & _).
  exists msg. split; [exact Hmsg | exact (Hu H)].
Defined.

(** C9, as the claim states it, fails: a [.env] file that is present and
    cannot be opened (permission denied) makes [gotenv.Load] fail, and
    [loadEnvVars] returns no error. *)
Lemma loadEnvVars_hides_permission_error :
  dotenv locked_dotenv_world = EnvOpenFails "permission denied" /\
  outcome (gotenv_Load locked_dotenv_world (boot ∅ ∅)) =
    Ret (Some "open .env: permission denied") /\
  outcome (loadEnvVars locked_dotenv_world (boot ∅ ∅)) = Ret None.
Proof.
  repeat split; vm_compute; reflexivity.
Qed.

(** C9, amended: [loadEnvVars] returns no error whenever [.env] cannot be
    opened, be it absent or present and unreadable, and when it loads; it
    returns the error of [gotenv.Load] for every [.env] that is opened and
    malformed. *)
Theorem loadEnvVars_open_errors_ignored (w : World) (st : Machine) :
  (dotenv w = EnvAbsent -> outcome (loadEnvVars w st) = Ret None) /\
  (forall reason, dotenv w = EnvOpenFails reason -> outcome (loadEnvVars w st) = Ret None) /\
  (forall pairs, dotenv w = EnvGood pairs -> outcome (loadEnvVars w st) = Ret None) /\
  (forall line, dotenv w = EnvMalformed line ->
     outcome (loadEnvVars w st) = Ret (Some ("line `" +:+ line +:+ "` doesn't match format"))) /\
  (forall line, dotenv w = EnvUnsetExport line ->
     outcome (loadEnvVars w st) = Ret (Some ("line `" +:+ line +:+ "` has an unset variable"))).
Proof.
  unfold loadEnvVars, gotenv_Load, mbind, M_bind, mret, M_ret.
  repeat split; intros; cbn [outcome final trace]; rewrite H; reflexivity.
Qed.

Lemma loadEnvVars_open_errors_ignored_witness :
  dotenv locked_dotenv_world = EnvOpenFails "permission denied" /\
  outcome (loadEnvVars locked_dotenv_world (boot ∅ ∅)) = Ret None.
Proof.
  split; [reflexivity |].
  apply (proj1 (proj2 (loadEnvVars_open_errors_ignored locked_dotenv_world (boot ∅ ∅)))
           "permission denied").
  reflexivity.
Defined.

(** Warnings are written at the levels WARN, INFO and DEBUG; with LOG_LEVEL
    unset the logger is at the error level and drops them. *)
Lemma setLogLevel_default_drops_warnings (st : Machine) :
  os_Getenv (environ st) "LOG_LEVEL" = "" ->
  logLevel (final (setLogLevel st)) = ErrorLevel /\
  enabled (logLevel (final (setLogLevel st))) WarnLevel = false.
Proof.
  intros Hlevel.
  unfold setLogLevel, get, modify, mbind, M_bind.
  cbn [outcome final trace]. rewrite Hlevel. split; reflexivity.
Qed.

(** ** Secret client *)

(** C10: when the call to the secret store succeeds, [getSecret] returns the
    value of the bundle if it is present and panics, returning nothing, if
    the bundle has no value. *)
Theorem getSecret_needs_value (w : World) (cli : BaseClient)
    (base name version : string) (st : Machine) (bundle : SecretBundle) :
  secret_store w (fetches st) base name version = inr bundle ->
  (Value bundle = None ->
     exists reason, outcome (getSecret w cli base name version st) = Panic reason) /\
  (forall v, Value bundle = Some v ->
     outcome (getSecret w cli base name version st) = Ret (v, None)).
Proof.
  intros Hstore.
  unfold getSecret, cli_GetSecret, mbind, M_bind, mret, M_ret, panic.
  cbn [outcome final trace]. rewrite Hstore.
  split.
  - intros ->. eexists. reflexivity.
  - intros v ->. reflexivity.
Qed.

Lemma getSecret_needs_value_witness :
  secret_store (sample_world EnvAbsent (inr sample_token) None store_no_value)
               (fetches (configured ∅)) "https://v" "Password" "" = inr (mkBundle None None) /\
  exists reason,
    outcome (getSecret (sample_world EnvAbsent (inr sample_token) None store_no_value)
                       keyvault_New "https://v" "Password" "" (configured ∅)) = Panic reason.
Proof.
  split; [reflexivity |].
  apply (getSecret_needs_value
           (sample_world EnvAbsent (inr sample_token) None store_no_value)
           keyvault_New "https://v" "Password" "" (configured ∅) (mkBundle None None));
    reflexivity.
Defined.

(** ** The expiry of a token *)

Lemma Expires_in_range (t : Token) (s : Z) :
  ExpiresOn t = Some s -> -9223372036 <= s <= 9223372036 -> Expires t = s.
Proof.
  intros Hs Hrange. unfold Expires, duration_of_seconds, minDuration, maxDuration.
  rewrite Hs. change (default (-3600) (Some s)) with s. cbv zeta.
  destruct (Z.leb_spec (-9223372036854775808) (s * 1000000000));
    destruct (Z.leb_spec (s * 1000000000) 9223372036854775807); cbn [andb]; try lia.
  symmetry. apply (Z.div_unique _ _ s 999999999); lia.
Qed.

Lemma Expires_out_of_range (t : Token) (s : Z) :
  ExpiresOn t = Some s -> s < -9223372036 \/ 9223372036 < s -> Expires t = -9223372036.
Proof.
  intros Hs Hrange. unfold Expires, duration_of_seconds, minDuration, maxDuration.
  rewrite Hs. change (default (-3600) (Some s)) with s. cbv zeta.
  destruct (Z.leb_spec (-9223372036854775808) (s * 1000000000));
    destruct (Z.leb_spec (s * 1000000000) 9223372036854775807); cbn [andb]; try lia;
    reflexivity.
Qed.

(** A cached token whose seconds do not fit a duration reads as expired: the
    run makes a token request. *)
Lemma far_future_token_is_refreshed :
  ExpiresOn far_future_token = Some 9223372037 /\
  IsExpired (now calm_world) far_future_token = true /\
  token_requests (trace (getKeyvaultAuthorizer calm_world
                           (configured (cache_with far_future_token)))) = 1%nat.
Proof.
  repeat split; vm_compute; reflexivity.
Qed.

(** ** Credential cache *)

Lemma IsExpired_spec (n : Z) (t : Token) : negb (IsExpired n t) = true <-> n < Expires t.
Proof.
  unfold IsExpired. rewrite Bool.negb_involutive. apply Z.ltb_lt.
Qed.

(** Case analysis of a run of [getKeyvaultAuthorizer]: one goal for every way
    the outside can answer, each with the run written out. *)
Ltac unfold_acquire :=
  unfold getKeyvaultAuthorizer, tryLoadCachedToken, defer, timeTrack, os_Stat, adal_LoadToken,
    adal_SaveToken, Refresh, adal_NewServicePrincipalToken,
    adal_NewServicePrincipalTokenFromManualToken, log_Warnf, log_Printf, log_Debugf,
    tell, get, mbind, M_bind, mret, M_ret, cachePath.

Ltac reduce_run := cbn [outcome final trace fst snd app negb].

Ltac answer :=
  match goal with
  | |- context [match ?x with _ => _ end] =>
      lazymatch x with
      | context [match _ with _ => _ end] => fail
      | _ => destruct x eqn:?
      end
  end; reduce_run.

Ltac acquire_cases :=
  match goal with
  | |- context [getKeyvaultAuthorizer ?w ?st] =>
      let r := fresh "r" in
      let Hr := fresh "Hr" in
      remember (getKeyvaultAuthorizer w st) as r eqn:Hr; revert Hr;
      unfold_acquire; reduce_run; repeat answer; intros ->; reduce_run
  end.

Ltac expiry :=
  repeat match goal with
  | H : negb (IsExpired _ _) = true |- _ => apply IsExpired_spec in H
  | H : negb (IsExpired _ _) = false |- _ =>
      apply Bool.not_true_iff_false in H; rewrite IsExpired_spec in H
  end.

(** Which events of the run are meant by a hypothesis [In e (trace _)]. *)
Ltac pick_events :=
  cbn [In] in *;
  repeat match goal with
  | H : _ \/ _ |- _ => destruct H
  | H : exists _, _ |- _ => destruct H
  | H : _ /\ _ |- _ => destruct H
  end;
  try contradiction; try discriminate;
  repeat match goal with
  | H : EvLoadToken _ _ = EvLoadToken _ _ |- _ => injection H as ?; subst
  | H : EvTokenRequest _ _ = EvTokenRequest _ _ |- _ => injection H as ?; subst
  | H : EvSaveToken _ _ _ _ = EvSaveToken _ _ _ _ |- _ => injection H as ?; subst
  | H : EvStat _ _ = EvStat _ _ |- _ => injection H as ?; subst
  end.

(** [getKeyvaultAuthorizer] leaves the global variables alone, fetches no
    secret and always returns. *)
Lemma getKeyvaultAuthorizer_frame (w : World) (st : Machine) :
  vars (final (getKeyvaultAuthorizer w st)) = vars st /\
  fetches (final (getKeyvaultAuthorizer w st)) = fetches st /\
  List.filter is_fetch (trace (getKeyvaultAuthorizer w st)) = [] /\
  exists r, outcome (getKeyvaultAuthorizer w st) = Ret r.
Proof.
  acquire_cases; repeat split; try reflexivity; eexists; reflexivity.
Qed.

(** C1: in every run in which a token is loaded from the cache path and its
    expiry, [Token.Expires], is after the current time,
    [getKeyvaultAuthorizer] makes no network call and, the SDK accepting the
    token, returns the bearer credential built from that token; the only
    error such a run can return is the SDK's refusal of the token.  The
    expiry is the stored number of seconds whenever that is within
    9223372036 of the epoch ([Expires_in_range]). *)
Theorem cached_token_reused (w : World) (st : Machine) (tok : Token) :
  In (EvLoadToken (cachePath (vars st)) (inr tok)) (trace (getKeyvaultAuthorizer w st)) ->
  now w < Expires tok ->
  network_calls (trace (getKeyvaultAuthorizer w st)) = 0%nat /\
  ((forall cfg, manual_token_refused w cfg (clientID (vars st)) vaultResource tok = None) ->
   exists cfg, outcome (getKeyvaultAuthorizer w st) =
     Ret (inr (NewBearerAuthorizer (mkSPT cfg (clientID (vars st)) None vaultResource tok)))) /\
  (forall e, outcome (getKeyvaultAuthorizer w st) = Ret (inl e) ->
   exists cfg, manual_token_refused w cfg (clientID (vars st)) vaultResource tok = Some e).
Proof.
  acquire_cases; intros Hin Hfuture; expiry; pick_events; try lia.
  all: split; [reflexivity |]; split.
  all: try (intros Hacc; eexists; reflexivity).
  all: try (intros Hacc; rewrite Hacc in *; discriminate).
  all: intros e' He'; try discriminate; injection He' as <-; eexists; eassumption.
Qed.

Lemma cached_token_reused_witness :
  In (EvLoadToken (cachePath (vars (configured (cache_with sample_token)))) (inr sample_token))
     (trace (getKeyvaultAuthorizer calm_world (configured (cache_with sample_token)))) /\
  now calm_world < Expires sample_token /\
  network_calls (trace (getKeyvaultAuthorizer calm_world (configured (cache_with sample_token)))) = 0%nat /\
  exists cfg, outcome (getKeyvaultAuthorizer calm_world (configured (cache_with sample_token))) =
    Ret (inr (NewBearerAuthorizer (mkSPT cfg "c" None vaultResource sample_token))).
Proof.
  assert (Hin : In (EvLoadToken (cachePath (vars (configured (cache_with sample_token))))
                                (inr sample_token))
                   (trace (getKeyvaultAuthorizer calm_world (configured (cache_with sample_token)))))
    by (vm_compute; tauto).
  assert (Hfuture : now calm_world < Expires sample_token) by (vm_compute; reflexivity).
  destruct (cached_token_reused calm_world (configured (cache_with sample_token))
              sample_token Hin Hfuture) as (Hnet & Hcred & _).
  split; [exact Hin |]. split; [exact Hfuture |]. split; [exact Hnet |].
  apply Hcred. intros cfg. reflexivity.
Defined.

(** C3, as the claim states it, fails: with no cache file and an identity
    provider that rejects the token request, [getKeyvaultAuthorizer] returns
    a credential and no error. *)
Lemma idp_rejection_returns_credential :
  In (EvTokenRequest sample_principal (inl "adal: Refresh request failed. Status Code = '401'"))
     (trace (getKeyvaultAuthorizer rejecting_world (configured ∅))) /\
  outcome (getKeyvaultAuthorizer rejecting_world (configured ∅)) =
    Ret (inr (NewBearerAuthorizer sample_principal)).
Proof.
  split; vm_compute; tauto.
Qed.

(** C3, amended: in every run in which the identity provider rejects the
    token request, [getKeyvaultAuthorizer] logs the warning "Could not
    refresh token" and returns, with no error, the bearer credential of the
    service principal token that was not refreshed. *)
Theorem idp_rejection_logged (w : World) (st : Machine)
    (spt : ServicePrincipalToken) (e : error) :
  In (EvTokenRequest spt (inl e)) (trace (getKeyvaultAuthorizer w st)) ->
  outcome (getKeyvaultAuthorizer w st) = Ret (inr (NewBearerAuthorizer spt)) /\
  In (EvLog WarnLevel "Could not refresh token: %v" [func_value])
     (trace (getKeyvaultAuthorizer w st)).
Proof.
  acquire_cases; intros Hin; pick_events.
  all: split; [reflexivity | cbn [In]; tauto].
Qed.

Lemma idp_rejection_logged_witness :
  In (EvTokenRequest sample_principal (inl "adal: Refresh request failed. Status Code = '401'"))
     (trace (getKeyvaultAuthorizer rejecting_world (configured ∅))) /\
  outcome (getKeyvaultAuthorizer rejecting_world (configured ∅)) =
    Ret (inr (NewBearerAuthorizer sample_principal)) /\
  In (EvLog WarnLevel "Could not refresh token: %v" [func_value])
     (trace (getKeyvaultAuthorizer rejecting_world (configured ∅))).
Proof.
  assert (Hin : In (EvTokenRequest sample_principal
                      (inl "adal: Refresh request failed. Status Code = '401'"))
                   (trace (getKeyvaultAuthorizer rejecting_world (configured ∅))))
    by (vm_compute; tauto).
  split; [exact Hin |].
  exact (idp_rejection_logged rejecting_world (configured ∅) sample_principal _ Hin).
Defined.

(** C4: a cache that cannot be read never makes [getKeyvaultAuthorizer]
    fail.  Every error it returns is a refusal of the SDK.  When the cache
    file is absent nothing is logged as a warning for it; when [os.Stat] or
    the load fails for another reason the warning is logged; in both cases
    the run goes on to the token request and, the SDK building the service
    principal token, makes exactly one and returns a credential. *)
Theorem cache_read_never_fatal (w : World) (st : Machine) :
  (forall err, outcome (getKeyvaultAuthorizer w st) = Ret (inl err) ->
     sdk_refusal w (vars st) err) /\
  (In (EvStat (cachePath (vars st)) StatNotExist) (trace (getKeyvaultAuthorizer w st)) ->
     ~ In load_warning (trace (getKeyvaultAuthorizer w st)) /\
     (principal_accepted w (vars st) ->
        token_requests (trace (getKeyvaultAuthorizer w st)) = 1%nat /\
        exists cred, outcome (getKeyvaultAuthorizer w st) = Ret (inr cred))) /\
  (forall e,
     In (EvStat (cachePath (vars st)) (StatFails e)) (trace (getKeyvaultAuthorizer w st)) \/
     In (EvLoadToken (cachePath (vars st)) (inl e)) (trace (getKeyvaultAuthorizer w st)) ->
     In load_warning (trace (getKeyvaultAuthorizer w st)) /\
     (principal_accepted w (vars st) ->
        token_requests (trace (getKeyvaultAuthorizer w st)) = 1%nat /\
        exists cred, outcome (getKeyvaultAuthorizer w st) = Ret (inr cred))).
Proof.
  unfold load_warning, principal_accepted, sdk_refusal.
  acquire_cases.
  all: split; [intros err Herr; try discriminate; injection Herr as <-; eauto 8 |].
  all: split; [intros Hin | intros e' Hin]; pick_events.
  all: split; [cbn [In]; try tauto; intuition discriminate |].
  all: intros Hacc; try (rewrite Hacc in *; discriminate).
  all: split; [reflexivity | eexists; reflexivity].
Qed.

Lemma cache_read_never_fatal_witness :
  In (EvLoadToken (cachePath (vars (configured corrupt_cache)))
        (inl "failed to decode contents of file (cache/c.token.json) into Token representation"))
     (trace (getKeyvaultAuthorizer calm_world (configured corrupt_cache))) /\
  In load_warning (trace (getKeyvaultAuthorizer calm_world (configured corrupt_cache))) /\
  token_requests (trace (getKeyvaultAuthorizer calm_world (configured corrupt_cache))) = 1%nat /\
  exists cred, outcome (getKeyvaultAuthorizer calm_world (configured corrupt_cache)) = Ret (inr cred).
Proof.
  assert (Hin : In (EvLoadToken (cachePath (vars (configured corrupt_cache)))
                      (inl "failed to decode contents of file (cache/c.token.json) into Token representation"))
                   (trace (getKeyvaultAuthorizer calm_world (configured corrupt_cache))))
    by (vm_compute; tauto).
  destruct (cache_read_never_fatal calm_world (configured corrupt_cache)) as (_ & _ & Hfail).
  destruct (Hfail _ (or_intror Hin)) as (Hwarn & Hgo).
  split; [exact Hin |]. split; [exact Hwarn |].
  apply Hgo. intros cfg. reflexivity.
Defined.

(** C5, as the claim states it, fails.  The token that is stored is the one
    the identity provider issued, whatever its expiry: here the provider
    issues a token that has expired already, the request succeeds and the
    cache file holds an expiry in the past.  And a new cache file is written
    only when the write does not fail: here the request succeeds, the write
    fails and there is no cache file. *)
Lemma cache_miss_stores_what_was_issued :
  (In (EvStat "cache/c.token.json" StatNotExist)
      (trace (getKeyvaultAuthorizer stale_issuer_world (configured ∅))) /\
   In (EvTokenRequest sample_principal (inr stale_token))
      (trace (getKeyvaultAuthorizer stale_issuer_world (configured ∅))) /\
   files (final (getKeyvaultAuthorizer stale_issuer_world (configured ∅))) !! "cache/c.token.json" =
     Some (mkFile 384 (TokenJSON stale_token)) /\
   Expires stale_token < now stale_issuer_world) /\
  (In (EvStat "cache/c.token.json" StatNotExist)
      (trace (getKeyvaultAuthorizer readonly_world (configured ∅))) /\
   In (EvTokenRequest sample_principal (inr sample_token))
      (trace (getKeyvaultAuthorizer readonly_world (configured ∅))) /\
   files (final (getKeyvaultAuthorizer readonly_world (configured ∅))) !! "cache/c.token.json" =
     None).
Proof.
  repeat split; vm_compute; tauto.
Qed.

(** C5, amended: in every run that finds no cache file, a cache file that
    does not load, or a cached token that has expired, [getKeyvaultAuthorizer],
    the SDK building the service principal token, makes exactly one token
    request.  When the request succeeds it saves the token just issued at
    cache/<clientID>.token.json with mode 0600 (384): if the write does not
    fail the file then holds exactly that token, so that its stored expiry is
    the expiry the identity provider issued; if the write fails the files are
    as before. *)
Theorem cache_miss_refreshes (w : World) (st : Machine) :
  In (EvStat (cachePath (vars st)) StatNotExist) (trace (getKeyvaultAuthorizer w st)) \/
  (exists e, In (EvLoadToken (cachePath (vars st)) (inl e)) (trace (getKeyvaultAuthorizer w st))) \/
  (exists tok, In (EvLoadToken (cachePath (vars st)) (inr tok)) (trace (getKeyvaultAuthorizer w st)) /\
               Expires tok <= now w) ->
  principal_accepted w (vars st) ->
  cachePath (vars st) = "cache/" +:+ clientID (vars st) +:+ ".token.json" /\
  token_requests (trace (getKeyvaultAuthorizer w st)) = 1%nat /\
  forall spt tk,
    In (EvTokenRequest spt (inr tk)) (trace (getKeyvaultAuthorizer w st)) ->
    In (EvSaveToken (cachePath (vars st)) 384 tk (save_fault w (cachePath (vars st))))
       (trace (getKeyvaultAuthorizer w st)) /\
    (save_fault w (cachePath (vars st)) = None ->
       files (final (getKeyvaultAuthorizer w st)) !! cachePath (vars st) =
         Some (mkFile 384 (TokenJSON tk))) /\
    (forall e, save_fault w (cachePath (vars st)) = Some e ->
       files (final (getKeyvaultAuthorizer w st)) = files st).
Proof.
  unfold principal_accepted.
  acquire_cases; intros Hmiss Hacc; expiry.
  all: try (rewrite Hacc in *; discriminate).
  all: pick_events; try lia.
  all: split; [reflexivity |]; split; [reflexivity |].
  all: intros spt tk Hin; pick_events.
  all: split; [cbn [In]; tauto |]; split.
  all: try (intros Hsave; discriminate Hsave).
  all: try (intros e' He'; discriminate He').
  all: try (intros e' He'; reflexivity).
  all: intros Hsave; cbn [files set_files spt_token set_token]; rewrite lookup_insert_eq;
       reflexivity.
Qed.

Lemma cache_miss_refreshes_witness :
  (In (EvStat (cachePath (vars (configured (cache_with stale_token)))) StatNotExist)
      (trace (getKeyvaultAuthorizer calm_world (configured (cache_with stale_token)))) \/
   (exists e, In (EvLoadToken (cachePath (vars (configured (cache_with stale_token)))) (inl e))
                 (trace (getKeyvaultAuthorizer calm_world (configured (cache_with stale_token))))) \/
   (exists tok, In (EvLoadToken (cachePath (vars (configured (cache_with stale_token)))) (inr tok))
                   (trace (getKeyvaultAuthorizer calm_world (configured (cache_with stale_token)))) /\
                Expires tok <= now calm_world)) /\
  principal_accepted calm_world (vars (configured (cache_with stale_token))) /\
  token_requests (trace (getKeyvaultAuthorizer calm_world (configured (cache_with stale_token)))) = 1%nat /\
  files (final (getKeyvaultAuthorizer calm_world (configured (cache_with stale_token))))
    !! "cache/c.token.json" = Some (mkFile 384 (TokenJSON sample_token)).
Proof.
  assert (Hmiss :
    In (EvStat (cachePath (vars (configured (cache_with stale_token)))) StatNotExist)
       (trace (getKeyvaultAuthorizer calm_world (configured (cache_with stale_token)))) \/
    (exists e, In (EvLoadToken (cachePath (vars (configured (cache_with stale_token)))) (inl e))
                  (trace (getKeyvaultAuthorizer calm_world (configured (cache_with stale_token))))) \/
    (exists tok, In (EvLoadToken (cachePath (vars (configured (cache_with stale_token)))) (inr tok))
                    (trace (getKeyvaultAuthorizer calm_world (configured (cache_with stale_token)))) /\
                 Expires tok <= now calm_world)).
  { right. right. exists stale_token. split; [vm_compute; tauto | vm_compute; discriminate]. }
  assert (Hacc : principal_accepted calm_world (vars (configured (cache_with stale_token))))
    by (intros cfg; reflexivity).
  destruct (cache_miss_refreshes calm_world (configured (cache_with stale_token)) Hmiss Hacc)
    as (_ & Hone & Hsaved).
  split; [exact Hmiss |]. split; [exact Hacc |]. split; [exact Hone |].
  assert (Hreq : In (EvTokenRequest sample_principal (inr sample_token))
                    (trace (getKeyvaultAuthorizer calm_world (configured (cache_with stale_token)))))
    by (vm_compute; tauto).
  destruct (Hsaved _ _ Hreq) as (_ & Hfile & _).
  exact (Hfile eq_refl).
Defined.

(** C6: in every run in which the token request succeeds and the write of
    the cache file fails, [getKeyvaultAuthorizer] logs the warning "Could not
    save token to cache", leaves the files as they were and returns, with no
    error, the bearer credential holding the token just issued. *)
Theorem cache_write_failure_not_fatal (w : World) (st : Machine)
    (spt : ServicePrincipalToken) (tk saved : Token) (path : string) (mode : Z) (e : error) :
  In (EvTokenRequest spt (inr tk)) (trace (getKeyvaultAuthorizer w st)) ->
  In (EvSaveToken path mode saved (Some e)) (trace (getKeyvaultAuthorizer w st)) ->
  outcome (getKeyvaultAuthorizer w st) = Ret (inr (NewBearerAuthorizer (set_token spt tk))) /\
  In (EvLog WarnLevel "Could not save token to cache path=%q: %v" [path; e])
     (trace (getKeyvaultAuthorizer w st)) /\
  files (final (getKeyvaultAuthorizer w st)) = files st.
Proof.
  acquire_cases; intros Hreq; pick_events; intros Hsave; pick_events.
  all: split; [reflexivity |]; split; [cbn [In]; tauto | reflexivity].
Qed.

Lemma cache_write_failure_not_fatal_witness :
  In (EvTokenRequest sample_principal (inr sample_token))
     (trace (getKeyvaultAuthorizer readonly_world (configured ∅))) /\
  In (EvSaveToken "cache/c.token.json" 384 sample_token (Some "mkdir cache: permission denied"))
     (trace (getKeyvaultAuthorizer readonly_world (configured ∅))) /\
  outcome (getKeyvaultAuthorizer readonly_world (configured ∅)) =
    Ret (inr (NewBearerAuthorizer (set_token sample_principal sample_token))).
Proof.
  assert (Hreq : In (EvTokenRequest sample_principal (inr sample_token))
                    (trace (getKeyvaultAuthorizer readonly_world (configured ∅))))
    by (vm_compute; tauto).
  assert (Hsave : In (EvSaveToken "cache/c.token.json" 384 sample_token
                        (Some "mkdir cache: permission denied"))
                     (trace (getKeyvaultAuthorizer readonly_world (configured ∅))))
    by (vm_compute; tauto).
  split; [exact Hreq |]. split; [exact Hsave |].
  exact (proj1 (cache_write_failure_not_fatal readonly_world (configured ∅)
                  sample_principal sample_token sample_token _ _ _ Hreq Hsave)).
Defined.

(** ** Orchestrator *)

Lemma parseArgs_trace (st : Machine) : trace (parseArgs st) = [].
Proof.
  unfold parseArgs. cbv zeta.
  match goal with |- context [if ?b then _ else _] => destruct b end; reflexivity.
Qed.

Lemma init_trace (w : World) (st : Machine) : trace (init w st) = [].
Proof.
  unfold init, loadEnvVars, gotenv_Load, setLogLevel, get, modify, os_Exit,
    mbind, M_bind, mret, M_ret.
  reduce_run.
  repeat match goal with
  | |- context [match ?x with _ => _ end] =>
      lazymatch x with
      | context [match _ with _ => _ end] => fail
      | _ => destruct x
      end
  end; reflexivity.
Qed.

Lemma getKeyvaultAuthorizer_no_fetch_warning (w : World) (st : Machine) :
  List.filter is_fetch_warning (trace (getKeyvaultAuthorizer w st)) = [].
Proof.
  acquire_cases; reflexivity.
Qed.

(** A fetch in a world whose answers carry their value: [getSecret] returns,
    after one request. *)
Lemma getSecret_run (w : World) (cli : BaseClient) (base name version : string) (st : Machine) :
  values_present w ->
  exists ev x err,
    getSecret w cli base name version st = mkRun (Ret (x, err)) (count_fetch st) [ev] /\
    is_fetch ev = true /\ is_fetch_warning ev = false /\
    fetch_of ev = (base, name, version, err).
Proof.
  intros Hvalues.
  unfold getSecret, cli_GetSecret, mbind, M_bind, mret, M_ret, panic.
  destruct (secret_store w (fetches st) base name version) as [e | bundle] eqn:Hstore.
  - do 3 eexists. repeat split; reflexivity.
  - destruct (Value bundle) as [v |] eqn:Hv.
    + do 3 eexists. repeat split; reflexivity.
    + exfalso. exact (Hvalues _ _ _ _ _ Hstore Hv).
Qed.

Ltac fetch_one Hvalues :=
  match goal with
  | |- context [getSecret ?w ?c ?b ?n ?v ?s] =>
      let Hrun := fresh "Hrun" in
      destruct (getSecret_run w c b n v s Hvalues) as (? & ? & [?|] & Hrun & ? & ? & ?);
      rewrite Hrun; clear Hrun;
      unfold warn_secret, log_Warnf, fmt_Print, tell, mret, M_ret; reduce_run
  end.

(** [main] once the configuration is read and the credential obtained:
    three fetches, a warning for each that failed, and a return. *)
Lemma main_run (w : World) (st : Machine) :
  outcome (parseArgs st) = Ret None ->
  (exists cred, outcome (getKeyvaultAuthorizer w (final (parseArgs st))) = Ret (inr cred)) ->
  values_present w ->
  outcome (main w st) = Ret tt /\
  map request_of (fetched (trace (main w st))) =
    [ (vaultBaseURL (vars (final (parseArgs st))), userSecretName (vars (final (parseArgs st))),
       userSecretVersion (vars (final (parseArgs st))));
      (vaultBaseURL (vars (final (parseArgs st))), passwordSecretName (vars (final (parseArgs st))), "");
      (vaultBaseURL (vars (final (parseArgs st))), passwordSecretName (vars (final (parseArgs st))),
       passwordSecretVersion (vars (final (parseArgs st)))) ] /\
  List.filter is_fetch_warning (trace (main w st)) =
    flat_map fetch_warning (fetched (trace (main w st))).
Proof.
  intros Hparse (cred & Hcred) Hvalues.
  enough (Hrun : exists st' tr,
             main w st = mkRun (Ret tt) st' tr /\
             map request_of (fetched tr) =
               [ (vaultBaseURL (vars (final (parseArgs st))),
                  userSecretName (vars (final (parseArgs st))),
                  userSecretVersion (vars (final (parseArgs st))));
                 (vaultBaseURL (vars (final (parseArgs st))),
                  passwordSecretName (vars (final (parseArgs st))), "");
                 (vaultBaseURL (vars (final (parseArgs st))),
                  passwordSecretName (vars (final (parseArgs st))),
                  passwordSecretVersion (vars (final (parseArgs st)))) ] /\
             List.filter is_fetch_warning tr = flat_map fetch_warning (fetched tr)).
  { destruct Hrun as (st' & tr & -> & Hfetched & Hwarned). repeat split; assumption. }
  pose proof (parseArgs_trace st) as Htr1.
  destruct (getKeyvaultAuthorizer_frame w (final (parseArgs st))) as (Hvars & _ & Hnofetch & _).
  pose proof (getKeyvaultAuthorizer_no_fetch_warning w (final (parseArgs st))) as Hnowarn.
  unfold main, getKeysClient, mbind, M_bind.
  destruct (parseArgs st) as [o1 st1 tr1].
  cbn [outcome final trace] in *. subst o1 tr1.
  unfold fmt_Print, tell. reduce_run.
  destruct (getKeyvaultAuthorizer w st1) as [o2 st2 tr2].
  cbn [outcome final trace] in *. subst o2.
  unfold mret, M_ret, get. reduce_run.
  rewrite Hvars.
  fetch_one Hvalues; fetch_one Hvalues; fetch_one Hvalues.
  all: do 2 eexists; split; [reflexivity |].
  all: unfold fetched; cbn [List.filter is_fetch is_fetch_warning app].
  all: rewrite !List.filter_app, ?Hnofetch, ?Hnowarn; cbn [List.filter is_fetch is_fetch_warning app].
  all: repeat match goal with H : is_fetch _ = true |- _ => rewrite H; clear H end.
  all: repeat match goal with H : is_fetch_warning _ = false |- _ => rewrite H; clear H end.
  all: cbn [map flat_map fetch_warning app String.eqb].
  all: repeat match goal with H : fetch_of _ = _ |- _ => rewrite H; clear H end.
  all: split; reflexivity.
Qed.

(** Once the configuration is read and the credential obtained, [main]
    never ends the process by itself: it returns or, at an answer without its
    value, panics. *)
Lemma main_never_exits (w : World) (st : Machine) :
  outcome (parseArgs st) = Ret None ->
  (exists cred, outcome (getKeyvaultAuthorizer w (final (parseArgs st))) = Ret (inr cred)) ->
  forall c, outcome (main w st) <> Exit c.
Proof.
  intros Hparse (cred & Hcred) c.
  unfold main, getKeysClient, mbind, M_bind.
  destruct (parseArgs st) as [o1 st1 tr1].
  cbn [outcome final trace] in *. subst o1.
  unfold fmt_Print, tell. reduce_run.
  destruct (getKeyvaultAuthorizer w st1) as [o2 st2 tr2].
  cbn [outcome final trace] in *. subst o2.
  unfold mret, M_ret, get. reduce_run.
  unfold getSecret, cli_GetSecret, warn_secret, log_Warnf, panic, tell, mbind, M_bind, mret, M_ret.
  reduce_run.
  repeat answer; discriminate.
Qed.

Lemma store_second_fails_values : values_present flaky_store_world.
Proof.
  intros n base name version bundle. cbn [secret_store flaky_store_world sample_world].
  unfold store_second_fails.
  destruct n as [| [| n]]; intros [= <-]; discriminate.
Qed.

(** [main] once the configuration is read and the credential obtained,
    whatever the secret store answers: the warnings for secrets are one for
    each fetch that failed, the requests are the first of the three in
    order, all three when [main] returns, and it stops early only by the
    panic of [getSecret] at an answer that is no error. *)
Lemma main_fetches (w : World) (st : Machine) :
  outcome (parseArgs st) = Ret None ->
  (exists cred, outcome (getKeyvaultAuthorizer w (final (parseArgs st))) = Ret (inr cred)) ->
  List.filter is_fetch_warning (trace (main w st)) =
    flat_map fetch_warning (fetched (trace (main w st))) /\
  (exists k, map request_of (fetched (trace (main w st))) =
             firstn k (secret_requests (vars (final (parseArgs st))))) /\
  (outcome (main w st) = Ret tt ->
   map request_of (fetched (trace (main w st))) =
     secret_requests (vars (final (parseArgs st)))) /\
  (forall reason, outcome (main w st) = Panic reason ->
   exists earlier q, fetched (trace (main w st)) = (earlier ++ [(q, None)])%list).
Proof.
  intros Hparse (cred & Hcred).
  pose proof (parseArgs_trace st) as Htr1.
  destruct (getKeyvaultAuthorizer_frame w (final (parseArgs st))) as (Hvars & _ & Hnofetch & _).
  pose proof (getKeyvaultAuthorizer_no_fetch_warning w (final (parseArgs st))) as Hnowarn.
  remember (main w st) as r eqn:Hr. revert Hr.
  unfold main, getKeysClient, mbind, M_bind.
  destruct (parseArgs st) as [o1 st1 tr1].
  cbn [outcome final trace] in *. subst o1 tr1.
  unfold fmt_Print, tell. reduce_run.
  destruct (getKeyvaultAuthorizer w st1) as [o2 st2 tr2].
  cbn [outcome final trace] in *. subst o2.
  unfold mret, M_ret, get. reduce_run.
  rewrite Hvars.
  unfold getSecret, cli_GetSecret, warn_secret, log_Warnf, panic, tell, mbind, M_bind, mret, M_ret.
  reduce_run.
  repeat answer; intros ->; reduce_run.
  all: unfold fetched, secret_requests;
       cbn [List.filter is_fetch is_fetch_warning app];
       rewrite !List.filter_app, ?Hnofetch, ?Hnowarn;
       cbn [List.filter is_fetch is_fetch_warning app map fetch_of flat_map fetch_warning
            request_of fst].
  all: split; [reflexivity |].
  all: split; [first [exists 3%nat; reflexivity | exists 2%nat; reflexivity
                     | exists 1%nat; reflexivity] |].
  all: split; [intros Hret; try discriminate Hret; reflexivity |].
  all: intros reason Hpanic; try discriminate Hpanic.
  all: first [ eexists [], _; reflexivity
             | eexists [_], _; reflexivity
             | eexists [_; _], _; reflexivity ].
Qed.

(** C8, as the claim states it, fails: the configuration is loaded, the
    credential obtained, the fetch of the user secret fails and is logged as
    a warning, the answer for the password comes without its value, and the
    process ends by the panic of [getSecret] with status 2. *)
Lemma fetch_failure_then_panic :
  outcome (init failure_then_no_value_world (boot env_full (cache_with sample_token))) = Ret tt /\
  outcome (parseArgs (final (init failure_then_no_value_world
                               (boot env_full (cache_with sample_token))))) = Ret None /\
  outcome (getKeyvaultAuthorizer failure_then_no_value_world
             (final (parseArgs (final (init failure_then_no_value_world
                                         (boot env_full (cache_with sample_token))))))) =
    Ret (inr (NewBearerAuthorizer
                (mkSPT (set_AuthorizeEndpoint sample_config "https://login.windows.net/t/oauth2/token")
                       "c" None vaultResource sample_token))) /\
  In (EvGetSecret "https://gokeyvaulttest1.vault.azure.net" "UserName"
        "aef49f415a2a4eb0ac5a21155a7cbf24"
        (inl "keyvault.BaseClient#GetSecret: Failure responding to request: StatusCode=404"))
     (trace (program failure_then_no_value_world (boot env_full (cache_with sample_token)))) /\
  In (EvLog WarnLevel "Error when trying to retrieve secret %s. Error: %v"
        ["UserName";
         "keyvault.BaseClient#GetSecret: Failure responding to request: StatusCode=404"])
     (trace (program failure_then_no_value_world (boot env_full (cache_with sample_token)))) /\
  exit_status (program failure_then_no_value_world (boot env_full (cache_with sample_token))) = 2.
Proof.
  repeat split; vm_compute; tauto.
Qed.

(** C8, amended: in every run of the process in which the configuration is
    loaded and the credential obtained, no failed fetch ends the process:
    [main] never exits by itself, the warnings logged for secrets are exactly
    one for each fetch that failed, the secrets are requested in the order of
    the three requests, and the run stops before the third only by the panic
    of [getSecret] at an answer that is no error.  When [main] returns, and so
    whenever the answers of the secret store carry their value, all three
    secrets were requested and the exit status is zero. *)
Theorem fetch_failures_not_fatal (w : World) (st : Machine) :
  outcome (init w st) = Ret tt ->
  outcome (parseArgs (final (init w st))) = Ret None ->
  (exists cred,
     outcome (getKeyvaultAuthorizer w (final (parseArgs (final (init w st))))) = Ret (inr cred)) ->
  (forall c, outcome (program w st) <> Exit c) /\
  List.filter is_fetch_warning (trace (program w st)) =
    flat_map fetch_warning (fetched (trace (program w st))) /\
  (exists k, map request_of (fetched (trace (program w st))) =
             firstn k (secret_requests (vars (final (parseArgs (final (init w st))))))) /\
  (forall reason, outcome (program w st) = Panic reason ->
   exists earlier q, fetched (trace (program w st)) = (earlier ++ [(q, None)])%list) /\
  (outcome (program w st) = Ret tt ->
   exit_status (program w st) = 0 /\
   map request_of (fetched (trace (program w st))) =
     secret_requests (vars (final (parseArgs (final (init w st)))))) /\
  (values_present w -> outcome (program w st) = Ret tt).
Proof.
  intros Hinit Hparse Hcred.
  pose proof (main_never_exits w (final (init w st)) Hparse Hcred) as Hnoexit.
  pose proof (main_run w (final (init w st)) Hparse Hcred) as Hrun.
  destruct (main_fetches w (final (init w st)) Hparse Hcred)
    as (Hwarned & Hprefix & Hall & Hpanic).
  pose proof (init_trace w st) as Htr.
  unfold program, exit_status, mbind, M_bind.
  destruct (init w st) as [o0 st0 tr0].
  cbn [outcome final trace] in *. subst o0 tr0.
  destruct (main w st0) as [o1 st1 tr1].
  cbn [outcome final trace app] in *.
  split; [exact Hnoexit |]. split; [exact Hwarned |]. split; [exact Hprefix |].
  split; [exact Hpanic |]. split.
  - intros Hret. rewrite Hret. split; [reflexivity | exact (Hall Hret)].
  - intros Hvalues. exact (proj1 (Hrun Hvalues)).
Qed.

Lemma fetch_failures_not_fatal_witness :
  outcome (init flaky_store_world (boot env_full (cache_with sample_token))) = Ret tt /\
  outcome (parseArgs (final (init flaky_store_world (boot env_full (cache_with sample_token))))) =
    Ret None /\
  values_present flaky_store_world /\
  exit_status (program flaky_store_world (boot env_full (cache_with sample_token))) = 0 /\
  List.filter is_fetch_warning
    (trace (program flaky_store_world (boot env_full (cache_with sample_token)))) =
    [EvLog WarnLevel "Error when trying to retrieve secret %s. Error: %v"
       ["Password";
        "keyvault.BaseClient#GetSecret: Failure responding to request: StatusCode=404"]].
Proof.
  assert (Hinit : outcome (init flaky_store_world (boot env_full (cache_with sample_token))) = Ret tt)
    by (vm_compute; reflexivity).
  assert (Hparse : outcome (parseArgs (final (init flaky_store_world
                                                (boot env_full (cache_with sample_token))))) = Ret None)
    by (vm_compute; reflexivity).
  assert (Hcred : exists cred,
             outcome (getKeyvaultAuthorizer flaky_store_world
                        (final (parseArgs (final (init flaky_store_world
                                                    (boot env_full (cache_with sample_token))))))) =
             Ret (inr cred))
    by (eexists; vm_compute; reflexivity).
  destruct (fetch_failures_not_fatal flaky_store_world (boot env_full (cache_with sample_token))
              Hinit Hparse Hcred) as (_ & Hwarned & _ & _ & Hret & Hvalues).
  split; [exact Hinit |]. split; [exact Hparse |]. split; [exact store_second_fails_values |].
  split; [exact (proj1 (Hret (Hvalues store_second_fails_values))) |].
  rewrite Hwarned. vm_compute. reflexivity.
Defined.

(** ** The earlier copy *)

(** In the earlier copy a cache file that does not load, and a cache that
    cannot be written, make [getKeyvaultToken] fail, and a secret that cannot
    be fetched ends the process with status 1. *)
Lemma earlier_copy_fails_on_cache_and_fetch :
  outcome (Part001.getKeyvaultToken calm_world (configured corrupt_cache)) =
    Ret (inl ("Failed to load token from file: " +:+
              "failed to decode contents of file (cache/c.token.json) into Token representation")) /\
  outcome (Part001.getKeyvaultToken readonly_world (configured ∅)) =
    Ret (inl "mkdir cache: permission denied") /\
  exit_status (Part001.main flaky_store_world (boot env_full (cache_with sample_token))) = 1.
Proof.
  repeat split; vm_compute; reflexivity.
Qed.

(** * Further properties *)

(** ** Configuration loader *)

Lemma parseArgs_vars (st : Machine) :
  final (parseArgs st) =
  set_vars (mkGlobals (os_Getenv (environ st) "VAULT_BASE_URL")
                      (os_Getenv (environ st) "USER_SECRET_NAME")
                      (os_Getenv (environ st) "USER_SECRET_VERSION")
                      (os_Getenv (environ st) "PASSWORD_SECRET_NAME")
                      (os_Getenv (environ st) "PASSWORD_SECRET_VERSION")
                      (subscriptionID (vars st))
                      (os_Getenv (environ st) "AZ_TENANT_ID")
                      (os_Getenv (environ st) "AZ_CLIENT_ID")
                      (os_Getenv (environ st) "AZ_CLIENT_SECRET")) st.
Proof.
  unfold parseArgs. cbv zeta.
  match goal with |- context [if ?b then _ else _] => destruct b end; reflexivity.
Qed.

(** Each variable that [parseArgs] tests is reported when it is empty. *)
Lemma parseArgs_reports_checked (st : Machine) (k : string) :
  In k checked_variables ->
  os_Getenv (environ st) k = "" ->
  exists msg, outcome (parseArgs st) = Ret (Some msg) /\ Contains msg (k +:+ " missing").
Proof.
  intros Hk E. cbn [In checked_variables] in Hk.
  repeat (destruct Hk as [<- | Hk]); try contradiction.
  all: apply parseArgs_reports; [discriminate |].
  all: intros m0 getenv; subst getenv; rewrite E.
  all: repeat first [apply report_if_empty_reports | apply report_if_empty_keeps].
Qed.

Lemma report_if_empty_skips (x text message : string) :
  x <> "" -> report_if_empty x text message = message.
Proof.
  intros Hx. unfold report_if_empty.
  destruct (String.eqb_spec x ""); [contradiction | reflexivity].
Qed.

(** X1: [parseArgs] returns no error exactly when the seven variables it
    tests (every required variable but PASSWORD_SECRET_NAME) are set to
    non-empty values. *)
Theorem parseArgs_accepts_iff (st : Machine) :
  outcome (parseArgs st) = Ret None <->
  Forall (fun k => os_Getenv (environ st) k <> "") checked_variables.
Proof.
  split.
  - intros Hnone. apply Forall_forall. intros k Hk E.
    apply list_elem_of_In in Hk.
    destruct (parseArgs_reports_checked st k Hk E) as (msg & Hmsg & _). congruence.
  - intros Hall. unfold checked_variables in Hall.
    repeat match goal with
    | H : Forall _ (_ :: _) |- _ => apply Forall_cons_1 in H; destruct H
    end.
    unfold parseArgs. cbv zeta.
    rewrite !report_if_empty_skips by assumption. reflexivity.
Qed.

(** X2: an error of [parseArgs] is one message: a non-empty list of reports
    followed by the closing sentence, and it reports every tested variable
    that is empty, not only the first. *)
Theorem parseArgs_error_aggregates (st : Machine) (msg : string) :
  outcome (parseArgs st) = Ret (Some msg) ->
  (exists body, msg = body +:+ config_suffix /\ body <> "") /\
  (forall k, In k checked_variables -> os_Getenv (environ st) k = "" ->
             Contains msg (k +:+ " missing")).
Proof.
  intros Hmsg. split.
  - revert Hmsg. unfold parseArgs. cbv zeta.
    match goal with |- context [if (0 <? String.length ?m)%nat then _ else _] =>
      destruct m as [| ch body] eqn:Hbody end; cbn [outcome Nat.ltb Nat.leb String.length].
    + discriminate.
    + intros [= <-]. eexists. split; [reflexivity | discriminate].
  - intros k Hk E.
    destruct (parseArgs_reports_checked st k Hk E) as (msg' & Hmsg' & Hc). congruence.
Qed.

Lemma parseArgs_error_aggregates_witness :
  outcome (parseArgs (boot ∅ ∅)) =
    Ret (Some ("VAULT_BASE_URL missing" +:+ newline +:+ "USER_SECRET_NAME missing" +:+ newline +:+
               "USER_SECRET_VERSION missing" +:+ newline +:+ "PASSWORD_SECRET_NAME missing" +:+ newline +:+
               "PASSWORD_SECRET_VERSION missing" +:+ newline +:+ "AZ_TENANT_ID missing" +:+ newline +:+
               "AZ_CLIENT_ID missing" +:+ newline +:+ "AZ_CLIENT_SECRET missing" +:+ newline +:+
               config_suffix)) /\
  Contains ("VAULT_BASE_URL missing" +:+ newline +:+ "USER_SECRET_NAME missing" +:+ newline +:+
               "USER_SECRET_VERSION missing" +:+ newline +:+ "PASSWORD_SECRET_NAME missing" +:+ newline +:+
               "PASSWORD_SECRET_VERSION missing" +:+ newline +:+ "AZ_TENANT_ID missing" +:+ newline +:+
               "AZ_CLIENT_ID missing" +:+ newline +:+ "AZ_CLIENT_SECRET missing" +:+ newline +:+
               config_suffix) ("AZ_CLIENT_ID" +:+ " missing").
Proof.
  assert (H : outcome (parseArgs (boot ∅ ∅)) =
    Ret (Some ("VAULT_BASE_URL missing" +:+ newline +:+ "USER_SECRET_NAME missing" +:+ newline +:+
               "USER_SECRET_VERSION missing" +:+ newline +:+ "PASSWORD_SECRET_NAME missing" +:+ newline +:+
               "PASSWORD_SECRET_VERSION missing" +:+ newline +:+ "AZ_TENANT_ID missing" +:+ newline +:+
               "AZ_CLIENT_ID missing" +:+ newline +:+ "AZ_CLIENT_SECRET missing" +:+ newline +:+
               config_suffix))) by (vm_compute; reflexivity).
  split; [exact H |].
  apply (proj2 (parseArgs_error_aggregates _ _ H) "AZ_CLIENT_ID").
  - cbn [In checked_variables]. tauto.
  - reflexivity.
Defined.

(** X3: when [parseArgs] returns no error, the package variables for the
    vault, the user secret, both versions, the tenant, the client and its
    secret are non-empty, [passwordSecretName] is whatever the environment
    holds (possibly empty), and the environment and the files are
    untouched. *)
Theorem parseArgs_success_globals (st : Machine) :
  outcome (parseArgs st) = Ret None ->
  vaultBaseURL (vars (final (parseArgs st))) <> "" /\
  userSecretName (vars (final (parseArgs st))) <> "" /\
  userSecretVersion (vars (final (parseArgs st))) <> "" /\
  passwordSecretVersion (vars (final (parseArgs st))) <> "" /\
  tenantID (vars (final (parseArgs st))) <> "" /\
  clientID (vars (final (parseArgs st))) <> "" /\
  clientSecret (vars (final (parseArgs st))) <> "" /\
  passwordSecretName (vars (final (parseArgs st))) =
    os_Getenv (environ st) "PASSWORD_SECRET_NAME" /\
  environ (final (parseArgs st)) = environ st /\
  files (final (parseArgs st)) = files st.
Proof.
  intros Hnone. rewrite parseArgs_vars. cbn.
  assert (Hk : forall k, In k checked_variables -> os_Getenv (environ st) k <> "").
  { intros k Hk E.
    destruct (parseArgs_reports_checked st k Hk E) as (msg & Hmsg & _). congruence. }
  repeat split; try (apply Hk; cbn [In checked_variables]; tauto).
Qed.

Lemma parseArgs_success_globals_witness :
  outcome (parseArgs (boot env_full ∅)) = Ret None /\
  clientID (vars (final (parseArgs (boot env_full ∅)))) <> "" /\
  tenantID (vars (final (parseArgs (boot env_full ∅)))) <> "".
Proof.
  assert (H : outcome (parseArgs (boot env_full ∅)) = Ret None) by (vm_compute; reflexivity).
  destruct (parseArgs_success_globals _ H) as (_ & _ & _ & _ & Ht & Hc & _).
  split; [exact H |]. split; [exact Hc | exact Ht].
Defined.

Lemma parseArgs_accepts_iff_witness :
  Forall (fun k => os_Getenv (environ (boot env_full ∅)) k <> "") checked_variables /\
  outcome (parseArgs (boot env_full ∅)) = Ret None.
Proof.
  assert (H : Forall (fun k => os_Getenv (environ (boot env_full ∅)) k <> "") checked_variables).
  { repeat constructor; vm_compute; discriminate. }
  split; [exact H |].
  exact (proj2 (parseArgs_accepts_iff (boot env_full ∅)) H).
Defined.

(** X4: [setLogLevel] enables warnings exactly for the values INFO, WARN and
    DEBUG of LOG_LEVEL and debug entries exactly for DEBUG (the comparison is
    exact: any other value, also lower case, gives the error level); errors
    are always enabled, and nothing but the level of the logger changes. *)
Theorem setLogLevel_levels (st : Machine) :
  (enabled (logLevel (final (setLogLevel st))) WarnLevel = true <->
   os_Getenv (environ st) "LOG_LEVEL" = "INFO" \/
   os_Getenv (environ st) "LOG_LEVEL" = "WARN" \/
   os_Getenv (environ st) "LOG_LEVEL" = "DEBUG") /\
  (enabled (logLevel (final (setLogLevel st))) DebugLevel = true <->
   os_Getenv (environ st) "LOG_LEVEL" = "DEBUG") /\
  enabled (logLevel (final (setLogLevel st))) ErrorLevel = true /\
  final (setLogLevel st) = set_logLevel (logLevel (final (setLogLevel st))) st /\
  trace (setLogLevel st) = [].
Proof.
  unfold setLogLevel, get, modify, mbind, M_bind. cbn [outcome final trace].
  destruct (String.eqb_spec (os_Getenv (environ st) "LOG_LEVEL") "INFO") as [-> | Hi].
  { cbn. repeat split; try tauto; try discriminate; intuition discriminate. }
  destruct (String.eqb_spec (os_Getenv (environ st) "LOG_LEVEL") "WARN") as [-> | Hw].
  { cbn. repeat split; try tauto; try discriminate; intuition discriminate. }
  destruct (String.eqb_spec (os_Getenv (environ st) "LOG_LEVEL") "DEBUG") as [-> | Hd].
  { cbn. repeat split; try tauto; try discriminate; intuition discriminate. }
  cbn. repeat split; try tauto; try discriminate; intuition discriminate.
Qed.

(** ** Start of the process *)

Lemma loadEnvVars_run (w : World) (st : Machine) :
  loadEnvVars w st =
  mkRun (Ret (if dotenv_rejected (dotenv w) then gotenv_Load_error (dotenv w) else None))
        (set_environ (gotenv_apply (dotenv w) (environ st)) st) [].
Proof.
  unfold loadEnvVars, gotenv_Load, mbind, M_bind, mret, M_ret.
  destruct (dotenv w); reflexivity.
Qed.

Lemma setLogLevel_run (st : Machine) :
  exists l, setLogLevel st = mkRun (Ret tt) (set_logLevel l st) [].
Proof.
  unfold setLogLevel, get, modify, mbind, M_bind.
  repeat match goal with
  | |- context [String.eqb ?a ?b] => destruct (String.eqb a b)
  end; eexists; reflexivity.
Qed.

Lemma init_run (w : World) (st : Machine) :
  exists l,
    init w st =
    mkRun (if dotenv_rejected (dotenv w) then Exit 1 else Ret tt)
          (if dotenv_rejected (dotenv w)
           then set_environ (gotenv_apply (dotenv w) (environ st)) st
           else set_logLevel l (set_environ (gotenv_apply (dotenv w) (environ st)) st)) [].
Proof.
  unfold init, mbind, M_bind, os_Exit. rewrite loadEnvVars_run.
  destruct (setLogLevel_run (set_environ (gotenv_apply (dotenv w) (environ st)) st)) as (l & Hl).
  exists l.
  destruct (dotenv w); cbn [dotenv_rejected gotenv_Load_error]; try reflexivity;
    rewrite Hl; reflexivity.
Qed.

(** X5: [init] ends the process with status 1 exactly when [.env] is opened
    and malformed, and returns otherwise; it writes nothing (the exit is
    silent) and leaves the files and the package variables alone. *)
Theorem init_exits_on_malformed_dotenv (w : World) (st : Machine) :
  outcome (init w st) = (if dotenv_rejected (dotenv w) then Exit 1 else Ret tt) /\
  trace (init w st) = [] /\
  files (final (init w st)) = files st /\
  vars (final (init w st)) = vars st.
Proof.
  destruct (init_run w st) as (l & ->).
  destruct (dotenv_rejected (dotenv w)); repeat split; reflexivity.
Qed.

(** X6: through [init] a variable of the process environment keeps its
    value whatever [.env] says; a variable that is not set takes the value of
    a well-formed [.env]; and when [.env] is absent, unreadable or malformed
    the environment is unchanged. *)
Theorem init_keeps_environment (w : World) (st : Machine) (k v : string) :
  (environ st !! k = Some v -> environ (final (init w st)) !! k = Some v) /\
  (forall pairs, dotenv w = EnvGood pairs -> NoDup pairs.*1 ->
     environ st !! k = None -> (k, v) ∈ pairs ->
     environ (final (init w st)) !! k = Some v) /\
  ((forall pairs, dotenv w <> EnvGood pairs) ->
     environ (final (init w st)) = environ st).
Proof.
  destruct (init_run w st) as (l & ->).
  assert (Henv : environ (if dotenv_rejected (dotenv w)
           then set_environ (gotenv_apply (dotenv w) (environ st)) st
           else set_logLevel l (set_environ (gotenv_apply (dotenv w) (environ st)) st)) =
           gotenv_apply (dotenv w) (environ st))
    by (destruct (dotenv_rejected (dotenv w)); reflexivity).
  cbn [final]. rewrite Henv. clear Henv.
  split; [| split].
  - intros Hk. destruct (dotenv w); cbn [gotenv_apply]; try exact Hk.
    apply lookup_union_Some_l. exact Hk.
  - intros pairs -> Hnodup Hnone Hin. cbn [gotenv_apply].
    rewrite lookup_union_r by exact Hnone.
    apply elem_of_list_to_map; assumption.
  - intros Hbad. destruct (dotenv w); cbn [gotenv_apply]; try reflexivity.
    exfalso. exact (Hbad _ eq_refl).
Qed.

Lemma init_keeps_environment_witness :
  environ (boot env_full ∅) !! "AZ_TENANT_ID" = Some "t" /\
  environ (final (init good_dotenv_world (boot env_full ∅))) !! "AZ_TENANT_ID" = Some "t" /\
  environ (final (init good_dotenv_world (boot env_full ∅))) !! "LOG_LEVEL" = Some "WARN".
Proof.
  assert (H : environ (boot env_full ∅) !! "AZ_TENANT_ID" = Some "t") by (vm_compute; reflexivity).
  split; [exact H |]. split.
  - exact (proj1 (init_keeps_environment good_dotenv_world (boot env_full ∅) "AZ_TENANT_ID" "t") H).
  - apply (proj1 (proj2 (init_keeps_environment good_dotenv_world (boot env_full ∅)
                           "LOG_LEVEL" "WARN"))
             [("AZ_TENANT_ID", "other"); ("LOG_LEVEL", "WARN")]).
    + reflexivity.
    + apply (bool_decide_unpack _). vm_compute. exact I.
    + vm_compute. reflexivity.
    + apply (bool_decide_unpack _). vm_compute. exact I.
Defined.

(** ** Credential cache *)

Ltac run_cases f :=
  let r := fresh "r" in
  let Hr := fresh "Hr" in
  remember f as r eqn:Hr; revert Hr;
  unfold_acquire; reduce_run; repeat answer; intros ->; reduce_run.

(** X7: [tryLoadCachedToken] always returns, changes nothing and makes no
    network call.  It returns neither token nor error exactly when the file
    is absent, and it returns a token only without an error and only when the
    file at the path holds that token. *)
Theorem tryLoadCachedToken_result (w : World) (st : Machine) (path : string) :
  final (tryLoadCachedToken w path st) = st /\
  network_calls (trace (tryLoadCachedToken w path st)) = 0%nat /\
  (exists res, outcome (tryLoadCachedToken w path st) = Ret res) /\
  (outcome (tryLoadCachedToken w path st) = Ret (None, None) <->
   stat_fault w path = None /\ files st !! path = None) /\
  (forall t err, outcome (tryLoadCachedToken w path st) = Ret (Some t, err) ->
     err = None /\ stat_fault w path = None /\ open_fault w path = None /\
     exists f, files st !! path = Some f /\ content f = TokenJSON t).
Proof.
  run_cases (tryLoadCachedToken w path st).
  all: split; [reflexivity |]; split; [reflexivity |]; split; [eexists; reflexivity |].
  all: try discriminate.
  all: split; [intuition congruence |].
  all: intros t' err' Heq; try discriminate Heq; injection Heq as <- <-; eauto 10.
Qed.

(** What a run of [getKeyvaultAuthorizer] that made a token request leaves
    in the cache, when the write succeeds: the token of the answer, or the
    empty token when the request was rejected. *)
Lemma getKeyvaultAuthorizer_saved (w : World) (st : Machine)
    (spt : ServicePrincipalToken) (r : error + Token) :
  In (EvTokenRequest spt r) (trace (getKeyvaultAuthorizer w st)) ->
  save_fault w (cachePath (vars st)) = None ->
  files (final (getKeyvaultAuthorizer w st)) !! cachePath (vars st) =
    Some (mkFile 384 (TokenJSON match r with inr tk => tk | inl _ => zeroToken end)) /\
  vars (final (getKeyvaultAuthorizer w st)) = vars st.
Proof.
  acquire_cases; intros Hin; pick_events; intros Hsave; try discriminate.
  all: cbn [files set_files vars spt_token set_token]; rewrite lookup_insert_eq.
  all: split; reflexivity.
Qed.

(** The run of [getKeyvaultAuthorizer] on a cache that holds a token which
    has not expired. *)
Lemma getKeyvaultAuthorizer_hit (w : World) (st : Machine)
    (cfg : OAuthConfig) (u : string) (f : File) (t : Token) :
  adal_NewOAuthConfig w ActiveDirectoryEndpoint (tenantID (vars st)) = inr cfg ->
  url_Parse w ("https://login.windows.net/" +:+ tenantID (vars st) +:+ "/oauth2/token") = inr u ->
  stat_fault w (cachePath (vars st)) = None ->
  open_fault w (cachePath (vars st)) = None ->
  files st !! cachePath (vars st) = Some f ->
  content f = TokenJSON t ->
  now w < Expires t ->
  manual_token_refused w (set_AuthorizeEndpoint cfg u) (clientID (vars st)) vaultResource t = None ->
  getKeyvaultAuthorizer w st =
    mkRun (Ret (inr (NewBearerAuthorizer
                       (mkSPT (set_AuthorizeEndpoint cfg u) (clientID (vars st)) None vaultResource t))))
          st
          [EvStat (cachePath (vars st)) StatOK;
           EvLoadToken (cachePath (vars st)) (inr t);
           EvLog InfoLevel "Timings" ["tryLoadCachedToken"];
           EvLog InfoLevel "Timings" ["NewServicePrincipalTokenFromManualToken"]].
Proof.
  intros Hcfg Hurl Hstat Hopen Hfile Hcontent Hfuture Hmanual.
  apply IsExpired_spec in Hfuture.
  unfold_acquire; reduce_run. unfold cachePath in *.
  rewrite Hcfg, Hurl, Hstat. rewrite !Hfile. reduce_run.
  rewrite Hopen, Hcontent. reduce_run.
  rewrite Hfuture, Hmanual. reflexivity.
Qed.

(** X8: the cache round trip.  After a run of [getKeyvaultAuthorizer] whose
    token request succeeded and whose write did not fail, a later run for the
    same client that can read the file, before the expiry [Token.Expires] of
    the token, makes no network call, returns the credential holding the
    token of the first run and changes nothing. *)
Theorem refreshed_token_is_reused (w1 w2 : World) (st : Machine)
    (spt : ServicePrincipalToken) (tk : Token) (cfg : OAuthConfig) (u : string) :
  In (EvTokenRequest spt (inr tk)) (trace (getKeyvaultAuthorizer w1 st)) ->
  save_fault w1 (cachePath (vars st)) = None ->
  adal_NewOAuthConfig w2 ActiveDirectoryEndpoint (tenantID (vars st)) = inr cfg ->
  url_Parse w2 ("https://login.windows.net/" +:+ tenantID (vars st) +:+ "/oauth2/token") = inr u ->
  stat_fault w2 (cachePath (vars st)) = None ->
  open_fault w2 (cachePath (vars st)) = None ->
  manual_token_refused w2 (set_AuthorizeEndpoint cfg u) (clientID (vars st)) vaultResource tk = None ->
  now w2 < Expires tk ->
  network_calls (trace (getKeyvaultAuthorizer w2 (final (getKeyvaultAuthorizer w1 st)))) = 0%nat /\
  outcome (getKeyvaultAuthorizer w2 (final (getKeyvaultAuthorizer w1 st))) =
    Ret (inr (NewBearerAuthorizer
                (mkSPT (set_AuthorizeEndpoint cfg u) (clientID (vars st)) None vaultResource tk))) /\
  final (getKeyvaultAuthorizer w2 (final (getKeyvaultAuthorizer w1 st))) =
    final (getKeyvaultAuthorizer w1 st).
Proof.
  intros Hreq Hsave Hcfg Hurl Hstat Hopen Hmanual Hfuture.
  destruct (getKeyvaultAuthorizer_saved w1 st spt (inr tk) Hreq Hsave) as (Hfile & Hvars).
  rewrite (getKeyvaultAuthorizer_hit w2 (final (getKeyvaultAuthorizer w1 st)) cfg u
             (mkFile 384 (TokenJSON tk)) tk); rewrite ?Hvars; try assumption; try reflexivity.
  repeat split; reflexivity.
Qed.

Lemma refreshed_token_is_reused_witness :
  In (EvTokenRequest sample_principal (inr sample_token))
     (trace (getKeyvaultAuthorizer calm_world (configured ∅))) /\
  network_calls (trace (getKeyvaultAuthorizer calm_world
                          (final (getKeyvaultAuthorizer calm_world (configured ∅))))) = 0%nat.
Proof.
  assert (Hreq : In (EvTokenRequest sample_principal (inr sample_token))
                    (trace (getKeyvaultAuthorizer calm_world (configured ∅))))
    by (vm_compute; tauto).
  split; [exact Hreq |].
  apply (refreshed_token_is_reused calm_world calm_world (configured ∅) sample_principal
           sample_token sample_config "https://login.windows.net/t/oauth2/token" Hreq);
    reflexivity.
Defined.

(** A run of [getKeyvaultAuthorizer] on a cache that holds an expired token
    makes one token request. *)
Lemma getKeyvaultAuthorizer_stale (w : World) (st : Machine)
    (cfg : OAuthConfig) (u : string) (f : File) (t : Token) :
  adal_NewOAuthConfig w ActiveDirectoryEndpoint (tenantID (vars st)) = inr cfg ->
  url_Parse w ("https://login.windows.net/" +:+ tenantID (vars st) +:+ "/oauth2/token") = inr u ->
  stat_fault w (cachePath (vars st)) = None ->
  open_fault w (cachePath (vars st)) = None ->
  files st !! cachePath (vars st) = Some f ->
  content f = TokenJSON t ->
  Expires t <= now w ->
  principal_refused w (set_AuthorizeEndpoint cfg u) (clientID (vars st)) (clientSecret (vars st))
                    vaultResource = None ->
  token_requests (trace (getKeyvaultAuthorizer w st)) = 1%nat.
Proof.
  intros Hcfg Hurl Hstat Hopen Hfile Hcontent Hpast Hprincipal.
  assert (Hexpired : negb (IsExpired (now w) t) = false).
  { apply Bool.not_true_iff_false. rewrite IsExpired_spec. lia. }
  unfold_acquire; reduce_run. unfold cachePath in *.
  rewrite Hcfg, Hurl, Hstat. rewrite !Hfile. reduce_run.
  rewrite Hopen, Hcontent. reduce_run.
  rewrite Hexpired, Hprincipal. reduce_run.
  repeat answer; reflexivity.
Qed.

(** X9: a rejected token request is cached too.  When the request fails and
    the write does not, the cache file holds the empty token; a later run
    that reads it (at any time after an hour before the epoch) takes it as
    expired and makes a token request again. *)
Theorem rejected_request_caches_empty_token (w1 w2 : World) (st : Machine)
    (spt : ServicePrincipalToken) (e : error) (cfg : OAuthConfig) (u : string) :
  In (EvTokenRequest spt (inl e)) (trace (getKeyvaultAuthorizer w1 st)) ->
  save_fault w1 (cachePath (vars st)) = None ->
  files (final (getKeyvaultAuthorizer w1 st)) !! cachePath (vars st) =
    Some (mkFile 384 (TokenJSON zeroToken)) /\
  (adal_NewOAuthConfig w2 ActiveDirectoryEndpoint (tenantID (vars st)) = inr cfg ->
   url_Parse w2 ("https://login.windows.net/" +:+ tenantID (vars st) +:+ "/oauth2/token") = inr u ->
   stat_fault w2 (cachePath (vars st)) = None ->
   open_fault w2 (cachePath (vars st)) = None ->
   principal_refused w2 (set_AuthorizeEndpoint cfg u) (clientID (vars st)) (clientSecret (vars st))
                     vaultResource = None ->
   -3600 <= now w2 ->
   token_requests (trace (getKeyvaultAuthorizer w2 (final (getKeyvaultAuthorizer w1 st)))) = 1%nat).
Proof.
  intros Hreq Hsave.
  destruct (getKeyvaultAuthorizer_saved w1 st spt (inl e) Hreq Hsave) as (Hfile & Hvars).
  split; [exact Hfile |].
  intros Hcfg Hurl Hstat Hopen Hprincipal Hnow.
  apply (getKeyvaultAuthorizer_stale w2 (final (getKeyvaultAuthorizer w1 st)) cfg u
           (mkFile 384 (TokenJSON zeroToken)) zeroToken);
    rewrite ?Hvars; try assumption; try reflexivity.
Qed.

Lemma rejected_request_caches_empty_token_witness :
  In (EvTokenRequest sample_principal (inl "adal: Refresh request failed. Status Code = '401'"))
     (trace (getKeyvaultAuthorizer rejecting_world (configured ∅))) /\
  files (final (getKeyvaultAuthorizer rejecting_world (configured ∅))) !! "cache/c.token.json" =
    Some (mkFile 384 (TokenJSON zeroToken)) /\
  token_requests (trace (getKeyvaultAuthorizer calm_world
                           (final (getKeyvaultAuthorizer rejecting_world (configured ∅))))) = 1%nat.
Proof.
  assert (Hreq : In (EvTokenRequest sample_principal
                       (inl "adal: Refresh request failed. Status Code = '401'"))
                    (trace (getKeyvaultAuthorizer rejecting_world (configured ∅))))
    by (vm_compute; tauto).
  destruct (rejected_request_caches_empty_token rejecting_world calm_world (configured ∅)
              sample_principal _ sample_config "https://login.windows.net/t/oauth2/token"
              Hreq eq_refl) as (Hfile & Hnext).
  split; [exact Hreq |]. split; [exact Hfile |].
  apply Hnext; try reflexivity. vm_compute. discriminate.
Defined.

(** X10: [getKeyvaultAuthorizer] changes nothing but the cache file: the
    environment, the package variables, the logger level and every other file
    are as before, and a run without a token request changes nothing at
    all. *)
Theorem getKeyvaultAuthorizer_touches_only_cache (w : World) (st : Machine) :
  environ (final (getKeyvaultAuthorizer w st)) = environ st /\
  vars (final (getKeyvaultAuthorizer w st)) = vars st /\
  logLevel (final (getKeyvaultAuthorizer w st)) = logLevel st /\
  (forall p, p <> cachePath (vars st) ->
     files (final (getKeyvaultAuthorizer w st)) !! p = files st !! p) /\
  (token_requests (trace (getKeyvaultAuthorizer w st)) = 0%nat ->
     final (getKeyvaultAuthorizer w st) = st).
Proof.
  acquire_cases.
  all: split; [reflexivity |]; split; [reflexivity |]; split; [reflexivity |].
  all: split; [intros p Hp; cbn [files set_files]; rewrite ?lookup_insert_ne by congruence;
               reflexivity |].
  all: cbn; intros Hzero; try discriminate; reflexivity.
Qed.

(** X11: [getKeyvaultAuthorizer] makes at most one token request and
    attempts one write of the cache for each request, whether or not the
    request succeeded; every write goes to the cache path with mode 0600
    (384), and the debug entry "Saved token to cache" is logged for it even
    when the write failed. *)
Theorem save_follows_every_request (w : World) (st : Machine) :
  (token_requests (trace (getKeyvaultAuthorizer w st)) <= 1)%nat /\
  save_attempts (trace (getKeyvaultAuthorizer w st)) =
    token_requests (trace (getKeyvaultAuthorizer w st)) /\
  (forall p m t r, In (EvSaveToken p m t r) (trace (getKeyvaultAuthorizer w st)) ->
     p = cachePath (vars st) /\ m = 384 /\
     In (EvLog DebugLevel "Saved token to cache. path=%q" [p])
        (trace (getKeyvaultAuthorizer w st))).
Proof.
  acquire_cases.
  all: split; [cbn; lia |]; split; [reflexivity |].
  all: intros p m t' r' Hin; pick_events.
  all: repeat split; try reflexivity; cbn [In]; tauto.
Qed.

(** X12: a run of [getKeyvaultAuthorizer] that returns an error has made no
    network call, attempted no write and changed nothing. *)
Theorem failed_acquire_has_no_effect (w : World) (st : Machine) (e : error) :
  outcome (getKeyvaultAuthorizer w st) = Ret (inl e) ->
  network_calls (trace (getKeyvaultAuthorizer w st)) = 0%nat /\
  save_attempts (trace (getKeyvaultAuthorizer w st)) = 0%nat /\
  final (getKeyvaultAuthorizer w st) = st.
Proof.
  acquire_cases; intros Herr; try discriminate; repeat split; reflexivity.
Qed.

Lemma failed_acquire_has_no_effect_witness :
  outcome (getKeyvaultAuthorizer unparsable_world (configured ∅)) =
    Ret (inl "Could not parse the Authorize Endpoint URL: parse: invalid URL escape") /\
  final (getKeyvaultAuthorizer unparsable_world (configured ∅)) = configured ∅.
Proof.
  assert (H : outcome (getKeyvaultAuthorizer unparsable_world (configured ∅)) =
              Ret (inl "Could not parse the Authorize Endpoint URL: parse: invalid URL escape"))
    by (vm_compute; reflexivity).
  split; [exact H |].
  exact (proj2 (proj2 (failed_acquire_has_no_effect unparsable_world (configured ∅) _ H))).
Defined.

(** ** Secret client and orchestrator *)

(** X13: [getSecret] makes exactly one request, with the vault, name and
    version it was given (an empty version is passed on as it is); on an
    error of the store it returns the empty string with that error, and what
    it returns otherwise is the value of the answer. *)
Theorem getSecret_one_request (w : World) (cli : BaseClient)
    (base name version : string) (st : Machine) :
  trace (getSecret w cli base name version st) =
    [EvGetSecret base name version (secret_store w (fetches st) base name version)] /\
  final (getSecret w cli base name version st) = count_fetch st /\
  (forall e, secret_store w (fetches st) base name version = inl e ->
     outcome (getSecret w cli base name version st) = Ret ("", Some e)) /\
  (forall v err, outcome (getSecret w cli base name version st) = Ret (v, err) ->
     v = printed_value (secret_store w (fetches st) base name version)).
Proof.
  unfold getSecret, cli_GetSecret, mbind, M_bind, mret, M_ret, panic.
  destruct (secret_store w (fetches st) base name version) as [e | bundle].
  - repeat split; try reflexivity.
    + intros e' [= <-]. reflexivity.
    + intros v err [= <- <-]. reflexivity.
  - cbn [printed_value]. destruct (Value bundle) as [v |]; repeat split; try reflexivity;
      try discriminate.
    intros v' err [= <- <-]. reflexivity.
Qed.

Lemma getKeyvaultAuthorizer_error_quiet (w : World) (st : Machine) (e : error) :
  outcome (getKeyvaultAuthorizer w st) = Ret (inl e) ->
  network_calls (trace (getKeyvaultAuthorizer w st)) = 0%nat /\
  files (final (getKeyvaultAuthorizer w st)) = files st.
Proof.
  acquire_cases; intros Herr; try discriminate; split; reflexivity.
Qed.

Lemma parseArgs_frame (st : Machine) :
  files (final (parseArgs st)) = files st /\ fetches (final (parseArgs st)) = fetches st.
Proof.
  rewrite parseArgs_vars. split; reflexivity.
Qed.

(** X14: when [parseArgs] returns an error, [main] logs it with
    "failed to parse args" and exits with status 1 having done nothing else:
    no output, no network call, no file changed. *)
Theorem main_config_error_is_fatal (w : World) (st : Machine) (e : error) :
  outcome (parseArgs st) = Ret (Some e) ->
  outcome (main w st) = Exit 1 /\
  trace (main w st) = [EvFatal "failed to parse args: %s\n" [e]] /\
  files (final (main w st)) = files st.
Proof.
  intros Hparse.
  pose proof (parseArgs_trace st) as Htr.
  destruct (parseArgs_frame st) as (Hfiles & _).
  unfold main, mbind, M_bind.
  destruct (parseArgs st) as [o1 st1 tr1].
  cbn [outcome final trace] in *. subst o1 tr1.
  unfold log_Fatalf, tell, os_Exit, mbind, M_bind. reduce_run.
  split; [reflexivity |]. split; [reflexivity | exact Hfiles].
Qed.

Lemma main_config_error_is_fatal_witness :
  outcome (parseArgs (boot (delete "AZ_CLIENT_ID" env_full) ∅)) =
    Ret (Some ("AZ_CLIENT_ID missing" +:+ newline +:+ config_suffix)) /\
  outcome (main calm_world (boot (delete "AZ_CLIENT_ID" env_full) ∅)) = Exit 1.
Proof.
  assert (H : outcome (parseArgs (boot (delete "AZ_CLIENT_ID" env_full) ∅)) =
              Ret (Some ("AZ_CLIENT_ID missing" +:+ newline +:+ config_suffix)))
    by (vm_compute; reflexivity).
  split; [exact H |].
  exact (proj1 (main_config_error_is_fatal calm_world _ _ H)).
Defined.

(** With the logger at the error level, the level of an unset LOG_LEVEL,
    [getKeyvaultAuthorizer] writes nothing to standard output. *)
Lemma getKeyvaultAuthorizer_silent_by_default (w : World) (st : Machine) :
  standard_output ErrorLevel (trace (getKeyvaultAuthorizer w st)) = [].
Proof.
  acquire_cases; reflexivity.
Qed.

(** The run of [getSecret] on an answer that is an error or carries its
    value. *)
Lemma getSecret_answer_run (w : World) (cli : BaseClient) (base name version : string)
    (st : Machine) :
  values_present w ->
  getSecret w cli base name version st =
    mkRun (Ret (printed_value (secret_store w (fetches st) base name version),
                match secret_store w (fetches st) base name version with
                | inl e => Some e
                | inr _ => None
                end))
          (count_fetch st)
          [EvGetSecret base name version (secret_store w (fetches st) base name version)].
Proof.
  intros Hvalues.
  unfold getSecret, cli_GetSecret, mbind, M_bind, mret, M_ret, panic.
  destruct (secret_store w (fetches st) base name version) as [e | bundle] eqn:Hstore.
  - reflexivity.
  - cbn [printed_value]. destruct (Value bundle) as [v |] eqn:Hv.
    + reflexivity.
    + exfalso. exact (Hvalues _ _ _ _ _ Hstore Hv).
Qed.

(** X15: when [getKeyvaultAuthorizer] returns an error, [main] logs it with
    "Could not get a Key Vault Client" and exits with status 1: no secret is
    requested, no network call made and no file changed.  Standard output,
    at every level of the logger, is the line "Getting Key Vault", what
    [getKeyvaultAuthorizer] logged at that level, and the fatal entry; at the
    error level it is the first and the last of these. *)
Theorem main_credential_error_is_fatal (w : World) (st : Machine) (e : error) :
  outcome (parseArgs st) = Ret None ->
  outcome (getKeyvaultAuthorizer w (final (parseArgs st))) = Ret (inl e) ->
  outcome (main w st) = Exit 1 /\
  (forall l,
     standard_output l (trace (main w st)) =
       EvStdout (Sprintln "Getting Key Vault") ::
       standard_output l (trace (getKeyvaultAuthorizer w (final (parseArgs st)))) ++
       [EvFatal "Could not get a Key Vault Client. %v" [e]]) /\
  standard_output ErrorLevel (trace (main w st)) =
    [EvStdout (Sprintln "Getting Key Vault");
     EvFatal "Could not get a Key Vault Client. %v" [e]] /\
  fetched (trace (main w st)) = [] /\
  network_calls (trace (main w st)) = 0%nat /\
  files (final (main w st)) = files st.
Proof.
  intros Hparse Hcred.
  pose proof (parseArgs_trace st) as Htr.
  destruct (parseArgs_frame st) as (Hfiles & _).
  destruct (getKeyvaultAuthorizer_error_quiet w (final (parseArgs st)) e Hcred) as (Hnet & Hkeep).
  destruct (getKeyvaultAuthorizer_frame w (final (parseArgs st))) as (_ & _ & Hnofetch & _).
  pose proof (getKeyvaultAuthorizer_silent_by_default w (final (parseArgs st))) as Hsilent.
  remember (main w st) as r eqn:Hr. revert Hr.
  unfold main, getKeysClient, mbind, M_bind.
  destruct (parseArgs st) as [o1 st1 tr1].
  cbn [outcome final trace] in *. subst o1 tr1.
  unfold fmt_Print, tell. reduce_run.
  destruct (getKeyvaultAuthorizer w st1) as [o2 st2 tr2].
  cbn [outcome final trace] in *. subst o2.
  unfold mret, M_ret, log_Fatalf, tell, os_Exit, mbind, M_bind. reduce_run.
  intros ->. reduce_run.
  unfold network_calls, standard_output, fetched in *.
  cbn [List.filter on_stdout is_network is_fetch].
  rewrite !List.filter_app. cbn [List.filter on_stdout is_network is_fetch].
  rewrite Hsilent, Hnofetch, !length_app, Hnet.
  split; [reflexivity |].
  split; [intros l; rewrite !List.filter_app; cbn [List.filter on_stdout]; rewrite ?app_nil_r; reflexivity |].
  split; [reflexivity |]. split; [reflexivity |]. split; [reflexivity | congruence].
Qed.

Lemma main_credential_error_is_fatal_witness :
  outcome (parseArgs (boot env_full ∅)) = Ret None /\
  outcome (getKeyvaultAuthorizer unparsable_world (final (parseArgs (boot env_full ∅)))) =
    Ret (inl "Could not parse the Authorize Endpoint URL: parse: invalid URL escape") /\
  outcome (main unparsable_world (boot env_full ∅)) = Exit 1.
Proof.
  assert (Hp : outcome (parseArgs (boot env_full ∅)) = Ret None) by (vm_compute; reflexivity).
  assert (Hc : outcome (getKeyvaultAuthorizer unparsable_world (final (parseArgs (boot env_full ∅)))) =
               Ret (inl "Could not parse the Authorize Endpoint URL: parse: invalid URL escape"))
    by (vm_compute; reflexivity).
  split; [exact Hp |]. split; [exact Hc |].
  exact (proj1 (main_credential_error_is_fatal unparsable_world _ _ Hp Hc)).
Defined.

(** One fetch of [main], by cases on the answer of the store. *)
Ltac fetch_answer Hvalues Hn1 Hn2 :=
  match goal with
  | |- context [getSecret ?w ?c ?b ?n ?v ?s] =>
      rewrite (getSecret_answer_run w c b n v s Hvalues);
      cbn [fetches count_fetch]; rewrite ?Hn2, ?Hn1;
      match goal with
      | |- context [EvGetSecret b n v ?r] => destruct r
      end;
      unfold warn_secret, log_Warnf, fmt_Print, tell, mret, M_ret; reduce_run
  end.

(** X16: standard output of [main] once the configuration is read and the
    credential obtained, at every level of the logger: "Getting Key Vault",
    what [getKeyvaultAuthorizer] logged at that level, and for each of the
    three secrets its header (none for the user secret), the warning when the
    fetch failed and warnings are enabled, and the line with its value, which
    is empty for a fetch that failed.  At the error level these are six
    lines.  The answers of the store are taken to carry their value. *)
Theorem main_prints_values (w : World) (st : Machine) :
  outcome (parseArgs st) = Ret None ->
  (exists cred, outcome (getKeyvaultAuthorizer w (final (parseArgs st))) = Ret (inr cred)) ->
  values_present w ->
  (forall l,
     standard_output l (trace (main w st)) =
       EvStdout (Sprintln "Getting Key Vault") ::
       standard_output l (trace (getKeyvaultAuthorizer w (final (parseArgs st)))) ++
       secret_output l (userSecretName (vars (final (parseArgs st)))) "Username Value= "
         (secret_store w (fetches st)
            (vaultBaseURL (vars (final (parseArgs st))))
            (userSecretName (vars (final (parseArgs st))))
            (userSecretVersion (vars (final (parseArgs st))))) ++
       [EvStdout (Sprintln "--- Password with no version set (current) ---")] ++
       secret_output l (passwordSecretName (vars (final (parseArgs st)))) "  Password Value= "
         (secret_store w (S (fetches st))
            (vaultBaseURL (vars (final (parseArgs st))))
            (passwordSecretName (vars (final (parseArgs st)))) "") ++
       [EvStdout ("--- Password version " +:+ passwordSecretVersion (vars (final (parseArgs st))) +:+
                  " ---" +:+ newline)] ++
       secret_output l (passwordSecretName (vars (final (parseArgs st)))) "  Password Value= "
         (secret_store w (S (S (fetches st)))
            (vaultBaseURL (vars (final (parseArgs st))))
            (passwordSecretName (vars (final (parseArgs st))))
            (passwordSecretVersion (vars (final (parseArgs st)))))) /\
  standard_output ErrorLevel (trace (main w st)) =
    [ EvStdout (Sprintln "Getting Key Vault");
      EvStdout ("Username Value= " +:+
        printed_value (secret_store w (fetches st)
                         (vaultBaseURL (vars (final (parseArgs st))))
                         (userSecretName (vars (final (parseArgs st))))
                         (userSecretVersion (vars (final (parseArgs st))))) +:+ newline);
      EvStdout (Sprintln "--- Password with no version set (current) ---");
      EvStdout ("  Password Value= " +:+
        printed_value (secret_store w (S (fetches st))
                         (vaultBaseURL (vars (final (parseArgs st))))
                         (passwordSecretName (vars (final (parseArgs st)))) "") +:+ newline);
      EvStdout ("--- Password version " +:+ passwordSecretVersion (vars (final (parseArgs st))) +:+
                " ---" +:+ newline);
      EvStdout ("  Password Value= " +:+
        printed_value (secret_store w (S (S (fetches st)))
                         (vaultBaseURL (vars (final (parseArgs st))))
                         (passwordSecretName (vars (final (parseArgs st))))
                         (passwordSecretVersion (vars (final (parseArgs st))))) +:+ newline) ].
Proof.
  intros Hparse (cred & Hcred) Hvalues.
  pose proof (parseArgs_trace st) as Htr1.
  destruct (parseArgs_frame st) as (_ & Hn1).
  destruct (getKeyvaultAuthorizer_frame w (final (parseArgs st))) as (Hvars & Hn2 & _ & _).
  pose proof (getKeyvaultAuthorizer_silent_by_default w (final (parseArgs st))) as Hsilent.
  remember (main w st) as r eqn:Hr. revert Hr.
  unfold main, getKeysClient, mbind, M_bind.
  destruct (parseArgs st) as [o1 st1 tr1].
  cbn [outcome final trace] in *. subst o1 tr1.
  unfold fmt_Print, tell. reduce_run.
  destruct (getKeyvaultAuthorizer w st1) as [o2 st2 tr2].
  cbn [outcome final trace] in *. subst o2.
  unfold mret, M_ret, get. reduce_run.
  rewrite Hvars.
  fetch_answer Hvalues Hn1 Hn2; fetch_answer Hvalues Hn1 Hn2; fetch_answer Hvalues Hn1 Hn2.
  all: intros ->; reduce_run.
  all: unfold standard_output, secret_output in *.
  all: split;
    [ intros l; cbn [List.filter on_stdout app];
      rewrite !List.filter_app; cbn [List.filter on_stdout app];
      destruct (enabled l WarnLevel); rewrite <- ?app_assoc; reflexivity
    | cbn [List.filter on_stdout app];
      rewrite !List.filter_app, Hsilent; reflexivity ].
Qed.

Lemma main_prints_values_witness :
  outcome (parseArgs (boot env_full (cache_with sample_token))) = Ret None /\
  values_present flaky_store_world /\
  standard_output WarnLevel
    (trace (main flaky_store_world (boot env_full (cache_with sample_token)))) =
    [ EvStdout (Sprintln "Getting Key Vault");
      EvStdout ("Username Value= value of UserName" +:+ newline);
      EvStdout (Sprintln "--- Password with no version set (current) ---");
      EvLog WarnLevel "Error when trying to retrieve secret %s. Error: %v"
        ["Password";
         "keyvault.BaseClient#GetSecret: Failure responding to request: StatusCode=404"];
      EvStdout ("  Password Value= " +:+ newline);
      EvStdout ("--- Password version 8142a26d3a02425282da3da565f4a952 ---" +:+ newline);
      EvStdout ("  Password Value= value of Password" +:+ newline) ].
Proof.
  assert (Hp : outcome (parseArgs (boot env_full (cache_with sample_token))) = Ret None)
    by (vm_compute; reflexivity).
  assert (Hc : exists cred,
             outcome (getKeyvaultAuthorizer flaky_store_world
                        (final (parseArgs (boot env_full (cache_with sample_token))))) =
             Ret (inr cred))
    by (eexists; vm_compute; reflexivity).
  split; [exact Hp |]. split; [exact store_second_fails_values |].
  rewrite (proj1 (main_prints_values flaky_store_world _ Hp Hc store_second_fails_values) WarnLevel).
  vm_compute. reflexivity.
Defined.

(** X17: when the answer for the user secret has no value, [main] panics at
    it: the exit status is 2, one secret was requested, and standard output,
    at every level of the logger, ends with what [getKeyvaultAuthorizer]
    logged: at the error level it is the line "Getting Key Vault" alone. *)
Theorem main_panics_without_value (w : World) (st : Machine) (bundle : SecretBundle) :
  outcome (parseArgs st) = Ret None ->
  (exists cred, outcome (getKeyvaultAuthorizer w (final (parseArgs st))) = Ret (inr cred)) ->
  secret_store w (fetches st)
               (vaultBaseURL (vars (final (parseArgs st))))
               (userSecretName (vars (final (parseArgs st))))
               (userSecretVersion (vars (final (parseArgs st)))) = inr bundle ->
  Value bundle = None ->
  exit_status (main w st) = 2 /\
  length (fetched (trace (main w st))) = 1%nat /\
  (forall l,
     standard_output l (trace (main w st)) =
       EvStdout (Sprintln "Getting Key Vault") ::
       standard_output l (trace (getKeyvaultAuthorizer w (final (parseArgs st))))) /\
  standard_output ErrorLevel (trace (main w st)) = [EvStdout (Sprintln "Getting Key Vault")].
Proof.
  intros Hparse (cred & Hcred) Hstore Hv.
  pose proof (parseArgs_trace st) as Htr1.
  destruct (parseArgs_frame st) as (_ & Hn1).
  destruct (getKeyvaultAuthorizer_frame w (final (parseArgs st))) as (Hvars & Hn2 & Hnofetch & _).
  pose proof (getKeyvaultAuthorizer_silent_by_default w (final (parseArgs st))) as Hsilent.
  remember (main w st) as r eqn:Hr. revert Hr.
  unfold exit_status, main, getKeysClient, mbind, M_bind.
  destruct (parseArgs st) as [o1 st1 tr1].
  cbn [outcome final trace] in *. subst o1 tr1.
  unfold fmt_Print, tell. reduce_run.
  destruct (getKeyvaultAuthorizer w st1) as [o2 st2 tr2].
  cbn [outcome final trace] in *. subst o2.
  unfold mret, M_ret, get. reduce_run.
  rewrite Hvars.
  unfold getSecret, cli_GetSecret, panic, mbind, M_bind. reduce_run.
  rewrite Hn2, Hn1, Hstore. reduce_run. rewrite Hv. reduce_run.
  intros ->. reduce_run.
  unfold fetched, standard_output in *.
  cbn [List.filter is_fetch on_stdout app]. rewrite !List.filter_app.
  cbn [List.filter is_fetch on_stdout app]. rewrite Hnofetch, Hsilent.
  split; [reflexivity |]. split; [reflexivity |].
  split; [intros l; rewrite !List.filter_app, !app_nil_r; reflexivity | reflexivity].
Qed.

Lemma main_panics_without_value_witness :
  outcome (parseArgs (boot env_full (cache_with sample_token))) = Ret None /\
  exit_status (main no_value_world (boot env_full (cache_with sample_token))) = 2.
Proof.
  assert (Hp : outcome (parseArgs (boot env_full (cache_with sample_token))) = Ret None)
    by (vm_compute; reflexivity).
  assert (Hc : exists cred,
             outcome (getKeyvaultAuthorizer no_value_world
                        (final (parseArgs (boot env_full (cache_with sample_token))))) =
             Ret (inr cred))
    by (eexists; vm_compute; reflexivity).
  split; [exact Hp |].
  apply (main_panics_without_value no_value_world _ (mkBundle None None) Hp Hc); reflexivity.
Defined.

(** ** The earlier copies *)

Ltac unfold_earlier :=
  unfold Part001.getKeyvaultToken, Part001.tryLoadCachedToken, Part001.timeTrack,
    Part001.log_Printf, defer, os_Stat, adal_LoadToken, adal_SaveToken, Refresh,
    adal_NewServicePrincipalToken, adal_NewServicePrincipalTokenFromManualToken,
    tell, get, panic, mbind, M_bind, mret, M_ret, cachePath.

Ltac earlier_cases :=
  match goal with
  | |- context [Part001.getKeyvaultToken ?w ?st] =>
      let r := fresh "r" in
      let Hr := fresh "Hr" in
      remember (Part001.getKeyvaultToken w st) as r eqn:Hr; revert Hr;
      unfold_earlier; reduce_run; repeat answer; intros ->; reduce_run
  end.

(** X18: in the earlier copy every trouble with the cache is fatal to
    [getKeyvaultToken]: a failing [os.Stat] or load is returned as the error
    before any token request, and a failing write is returned as the error
    although the token request was made, leaving the files unchanged. *)
Theorem earlier_cache_trouble_is_fatal (w : World) (st : Machine) :
  (forall e,
     In (EvStat (cachePath (vars st)) (StatFails e)) (trace (Part001.getKeyvaultToken w st)) ->
     outcome (Part001.getKeyvaultToken w st) = Ret (inl e) /\
     token_requests (trace (Part001.getKeyvaultToken w st)) = 0%nat) /\
  (forall e,
     In (EvLoadToken (cachePath (vars st)) (inl e)) (trace (Part001.getKeyvaultToken w st)) ->
     outcome (Part001.getKeyvaultToken w st) =
       Ret (inl ("Failed to load token from file: " +:+ e)) /\
     token_requests (trace (Part001.getKeyvaultToken w st)) = 0%nat) /\
  (forall p m t e,
     In (EvSaveToken p m t (Some e)) (trace (Part001.getKeyvaultToken w st)) ->
     outcome (Part001.getKeyvaultToken w st) = Ret (inl e) /\
     token_requests (trace (Part001.getKeyvaultToken w st)) = 1%nat /\
     final (Part001.getKeyvaultToken w st) = st).
Proof.
  earlier_cases.
  all: split; [intros e' Hin; pick_events; split; reflexivity |].
  all: split; [intros e' Hin; pick_events; split; reflexivity |].
  all: intros p m t' e' Hin; pick_events; repeat split; reflexivity.
Qed.

Lemma earlier_cache_trouble_is_fatal_witness :
  In (EvSaveToken "cache/c.token.json" 384 sample_token (Some "mkdir cache: permission denied"))
     (trace (Part001.getKeyvaultToken readonly_world (configured ∅))) /\
  outcome (Part001.getKeyvaultToken readonly_world (configured ∅)) =
    Ret (inl "mkdir cache: permission denied").
Proof.
  assert (Hin : In (EvSaveToken "cache/c.token.json" 384 sample_token
                      (Some "mkdir cache: permission denied"))
                   (trace (Part001.getKeyvaultToken readonly_world (configured ∅))))
    by (vm_compute; tauto).
  split; [exact Hin |].
  exact (proj1 (proj2 (proj2 (earlier_cache_trouble_is_fatal readonly_world (configured ∅)))
                  _ _ _ _ Hin)).
Defined.

(** X19: when [url.Parse] fails for the token endpoint, [main.go] returns
    the error wrapped in "Could not parse the Authorize Endpoint URL", while
    both earlier copies dereference the nil URL before they look at the error
    and panic. *)
Theorem url_parse_failure_by_copy (w : World) (st : Machine) (cfg : OAuthConfig) (e : error) :
  adal_NewOAuthConfig w ActiveDirectoryEndpoint (tenantID (vars st)) = inr cfg ->
  url_Parse w ("https://login.windows.net/" +:+ tenantID (vars st) +:+ "/oauth2/token") = inl e ->
  outcome (getKeyvaultAuthorizer w st) =
    Ret (inl ("Could not parse the Authorize Endpoint URL: " +:+ e)) /\
  (exists reason, outcome (Part001.getKeyvaultToken w st) = Panic reason) /\
  (exists reason, outcome (Part000.getKeyvaultToken w st) = Panic reason).
Proof.
  intros Hcfg Hurl.
  unfold getKeyvaultAuthorizer, Part001.getKeyvaultToken, Part000.getKeyvaultToken,
    get, panic, mbind, M_bind, mret, M_ret.
  reduce_run. rewrite Hcfg, Hurl. reduce_run.
  repeat split; try reflexivity; eexists; reflexivity.
Qed.

Lemma url_parse_failure_by_copy_witness :
  url_Parse unparsable_world
    ("https://login.windows.net/" +:+ tenantID (vars (configured ∅)) +:+ "/oauth2/token") =
    inl "parse: invalid URL escape" /\
  exists reason, outcome (Part001.getKeyvaultToken unparsable_world (configured ∅)) = Panic reason.
Proof.
  split; [reflexivity |].
  apply (url_parse_failure_by_copy unparsable_world (configured ∅) sample_config
           "parse: invalid URL escape"); reflexivity.
Defined.

Lemma earlier_getKeyvaultToken_frame (w : World) (st : Machine) :
  vars (final (Part001.getKeyvaultToken w st)) = vars st /\
  fetches (final (Part001.getKeyvaultToken w st)) = fetches st /\
  List.filter is_fetch (trace (Part001.getKeyvaultToken w st)) = [].
Proof.
  earlier_cases; repeat split; reflexivity.
Qed.

Lemma earlier_parseArgs_run (w : World) (st : Machine) :
  Part001.parseArgs w st =
    (if dotenv_rejected (dotenv w)
     then mkRun (Ret (gotenv_Load_error (dotenv w)))
                (set_environ (gotenv_apply (dotenv w) (environ st)) st) []
     else parseArgs (set_environ (gotenv_apply (dotenv w) (environ st)) st)).
Proof.
  unfold Part001.parseArgs, Part001.LoadEnvVars, mbind, M_bind, mret, M_ret.
  rewrite loadEnvVars_run.
  destruct (dotenv w); cbn [dotenv_rejected gotenv_Load_error]; try reflexivity.
  all: destruct (parseArgs _) as [o s t]; rewrite ?app_nil_l; reflexivity.
Qed.

Lemma earlier_parseArgs_frame (w : World) (st : Machine) :
  trace (Part001.parseArgs w st) = [] /\
  fetches (final (Part001.parseArgs w st)) = fetches st /\
  files (final (Part001.parseArgs w st)) = files st.
Proof.
  rewrite earlier_parseArgs_run.
  destruct (dotenv_rejected (dotenv w)); [repeat split; reflexivity |].
  rewrite parseArgs_trace, parseArgs_vars. repeat split; reflexivity.
Qed.

(** X20: the earlier copy loads [.env] inside [parseArgs]: a malformed
    file makes it return the error of [gotenv.Load] with no variable read,
    and otherwise it behaves as [parseArgs] of [main.go] on the merged
    environment. *)
Theorem earlier_parseArgs_loads_dotenv (w : World) (st : Machine) :
  (dotenv_rejected (dotenv w) = true ->
   outcome (Part001.parseArgs w st) = Ret (gotenv_Load_error (dotenv w)) /\
   (exists e, gotenv_Load_error (dotenv w) = Some e) /\
   vars (final (Part001.parseArgs w st)) = vars st) /\
  (dotenv_rejected (dotenv w) = false ->
   Part001.parseArgs w st = parseArgs (set_environ (gotenv_apply (dotenv w) (environ st)) st)).
Proof.
  rewrite earlier_parseArgs_run. split; intros Hbad; rewrite Hbad; [| reflexivity].
  cbn [outcome final vars set_environ]. split; [reflexivity |]. split; [| reflexivity].
  destruct (dotenv w); try discriminate Hbad; eexists; reflexivity.
Qed.

Lemma earlier_parseArgs_loads_dotenv_witness :
  dotenv_rejected (dotenv malformed_dotenv_world) = true /\
  outcome (Part001.parseArgs malformed_dotenv_world (boot env_full ∅)) =
    Ret (Some "line `VAULT BASE URL` doesn't match format").
Proof.
  split; [reflexivity |].
  exact (proj1 (proj1 (earlier_parseArgs_loads_dotenv malformed_dotenv_world (boot env_full ∅))
                  eq_refl)).
Defined.

Lemma earlier_getKeyvaultToken_prints_nothing (w : World) (st : Machine) :
  stdout (trace (Part001.getKeyvaultToken w st)) = [].
Proof.
  earlier_cases; reflexivity.
Qed.

(** X21: in the earlier copy the first secret that cannot be fetched ends
    the process: [main] prints "getUsername failed" with the error, exits with
    status 1 and requests no further secret. *)
Theorem earlier_main_stops_at_first_failure (w : World) (st : Machine) (e : error) :
  outcome (Part001.parseArgs w st) = Ret None ->
  (exists cred,
     outcome (Part001.getKeyvaultToken w (final (Part001.parseArgs w st))) = Ret (inr cred)) ->
  secret_store w (fetches st)
               (vaultBaseURL (vars (final (Part001.parseArgs w st))))
               (userSecretName (vars (final (Part001.parseArgs w st))))
               (userSecretVersion (vars (final (Part001.parseArgs w st)))) = inl e ->
  outcome (Part001.main w st) = Exit 1 /\
  map request_of (fetched (trace (Part001.main w st))) =
    [ (vaultBaseURL (vars (final (Part001.parseArgs w st))),
       userSecretName (vars (final (Part001.parseArgs w st))),
       userSecretVersion (vars (final (Part001.parseArgs w st)))) ] /\
  stdout (trace (Part001.main w st)) =
    [Sprintln "Getting Key Vault"; "getUsername failed" +:+ ": " +:+ e].
Proof.
  intros Hparse (cred & Hcred) Hstore.
  destruct (earlier_parseArgs_frame w st) as (Htr1 & Hn1 & _).
  destruct (earlier_getKeyvaultToken_frame w (final (Part001.parseArgs w st)))
    as (Hvars & Hn2 & Hnofetch).
  pose proof (earlier_getKeyvaultToken_prints_nothing w (final (Part001.parseArgs w st))) as Hquiet.
  unfold Part001.main, Part001.getKeysClient, mbind, M_bind.
  destruct (Part001.parseArgs w st) as [o1 st1 tr1].
  cbn [outcome final trace] in *. subst o1 tr1.
  unfold fmt_Print, tell. reduce_run.
  destruct (Part001.getKeyvaultToken w st1) as [o2 st2 tr2].
  cbn [outcome final trace] in *. subst o2.
  unfold Part001.onErrorFail, fmt_Print, tell, os_Exit.
  unfold get, mbind, M_bind, mret, M_ret.
  reduce_run. rewrite Hvars.
  unfold getSecret, cli_GetSecret, mbind, M_bind, mret, M_ret. reduce_run.
  rewrite Hn2, Hn1, Hstore. reduce_run.
  unfold fetched, stdout in *.
  cbn [flat_map List.filter is_fetch app]. rewrite !List.filter_app, !flat_map_app.
  rewrite Hnofetch, Hquiet. repeat split; reflexivity.
Qed.

Lemma earlier_main_stops_at_first_failure_witness :
  outcome (Part001.parseArgs store_down_world (boot env_full (cache_with sample_token))) = Ret None /\
  outcome (Part001.main store_down_world (boot env_full (cache_with sample_token))) = Exit 1.
Proof.
  assert (Hp : outcome (Part001.parseArgs store_down_world
                          (boot env_full (cache_with sample_token))) = Ret None)
    by (vm_compute; reflexivity).
  assert (Hc : exists cred,
             outcome (Part001.getKeyvaultToken store_down_world
                        (final (Part001.parseArgs store_down_world
                                  (boot env_full (cache_with sample_token))))) = Ret (inr cred))
    by (eexists; vm_compute; reflexivity).
  split; [exact Hp |].
  apply (earlier_main_stops_at_first_failure store_down_world _
           "keyvault.BaseClient#GetSecret: Failure sending request" Hp Hc).
  reflexivity.
Defined.

(** X22: [getKeyvaultToken] of the first copy touches neither the network
    nor the files; the credential it returns holds the empty token with the
    client, its secret and the vault resource; and it panics when
    [adal.NewOAuthConfig] fails, whose error it never looks at. *)
Theorem first_copy_acquires_lazily (w : World) (st : Machine) :
  trace (Part000.getKeyvaultToken w st) = [] /\
  final (Part000.getKeyvaultToken w st) = st /\
  (forall cred, outcome (Part000.getKeyvaultToken w st) = Ret (inr cred) ->
     spt_token (tokenProvider cred) = zeroToken /\
     spt_clientID (tokenProvider cred) = clientID (vars st) /\
     spt_secret (tokenProvider cred) = Some (clientSecret (vars st)) /\
     spt_resource (tokenProvider cred) = vaultResource) /\
  (forall e, adal_NewOAuthConfig w ActiveDirectoryEndpoint (tenantID (vars st)) = inl e ->
     exists reason, outcome (Part000.getKeyvaultToken w st) = Panic reason).
Proof.
  unfold Part000.getKeyvaultToken, adal_NewServicePrincipalToken, get, panic,
    mbind, M_bind, mret, M_ret.
  reduce_run.
  repeat answer.
  all: split; [reflexivity |]; split; [reflexivity |]; split.
  all: try (intros cred Hcred; try discriminate Hcred;
            injection Hcred as Hcred; subst cred; repeat split; reflexivity).
  all: intros e' He'; try congruence; eexists; reflexivity.
Qed.

(** X23: [getKeysClient] of the first copy drops the error of
    [getKeyvaultToken]: when the SDK refuses to build the service principal
    token it returns, without any sign of failure, a client with no
    credential. *)
Theorem first_copy_drops_credential_error (w : World) (st : Machine)
    (cfg : OAuthConfig) (u : string) (e : error) :
  adal_NewOAuthConfig w ActiveDirectoryEndpoint (tenantID (vars st)) = inr cfg ->
  url_Parse w ("https://login.windows.net/" +:+ tenantID (vars st) +:+ "/oauth2/token") = inr u ->
  principal_refused w (set_AuthorizeEndpoint cfg u) (clientID (vars st)) (clientSecret (vars st))
                    vaultResource = Some e ->
  outcome (Part000.getKeyvaultToken w st) = Ret (inl e) /\
  Part000.getKeysClient w st = mkRun (Ret keyvault_New) st [].
Proof.
  intros Hcfg Hurl Hrefused.
  assert (Hfirst : Part000.getKeyvaultToken w st = mkRun (Ret (inl e)) st []).
  { unfold Part000.getKeyvaultToken, adal_NewServicePrincipalToken, get, mbind, M_bind, mret, M_ret.
    reduce_run. rewrite Hcfg, Hurl. reduce_run. rewrite Hrefused. reflexivity. }
  split; [rewrite Hfirst; reflexivity |].
  unfold Part000.getKeysClient, mbind, M_bind, mret, M_ret. rewrite Hfirst. reflexivity.
Qed.

Lemma first_copy_drops_credential_error_witness :
  principal_refused refusing_world
    (set_AuthorizeEndpoint sample_config "https://login.windows.net/t/oauth2/token")
    (clientID (vars (configured ∅))) (clientSecret (vars (configured ∅))) vaultResource =
    Some "parameter 'secret' cannot be empty" /\
  Part000.getKeysClient refusing_world (configured ∅) = mkRun (Ret keyvault_New) (configured ∅) [].
Proof.
  split; [reflexivity |].
  apply (first_copy_drops_credential_error refusing_world (configured ∅) sample_config
           "https://login.windows.net/t/oauth2/token" "parameter 'secret' cannot be empty");
    reflexivity.
Defined.

(** ** The process *)

Lemma parseArgs_returns (st : Machine) :
  exists err, outcome (parseArgs st) = Ret err.
Proof.
  unfold parseArgs. cbv zeta.
  match goal with |- context [if ?b then _ else _] => destruct b end; eexists; reflexivity.
Qed.

(** X24: the exit status of the process, for stores whose answers carry
    their value: 1 when [.env] is malformed, when [parseArgs] returns an error
    or when [getKeyvaultAuthorizer] returns one, and 0 otherwise, whatever the
    secret fetches return. *)
Theorem program_exit_status (w : World) (st : Machine) :
  values_present w ->
  exit_status (program w st) =
    (if dotenv_rejected (dotenv w) then 1
     else match outcome (parseArgs (final (init w st))) with
          | Ret None =>
              match outcome (getKeyvaultAuthorizer w (final (parseArgs (final (init w st))))) with
              | Ret (inr _) => 0
              | _ => 1
              end
          | _ => 1
          end).
Proof.
  intros Hvalues.
  destruct (init_run w st) as (l & Hinit).
  unfold program, mbind, M_bind. rewrite Hinit.
  destruct (dotenv_rejected (dotenv w)); [reflexivity |].
  cbn [outcome final trace].
  set (st0 := set_logLevel l (set_environ (gotenv_apply (dotenv w) (environ st)) st)).
  destruct (parseArgs_returns st0) as ([e |] & Hparse).
  - rewrite Hparse. unfold main, mbind, M_bind.
    destruct (parseArgs st0) as [o1 st1 tr1]. cbn [outcome] in Hparse. subst o1.
    unfold log_Fatalf, tell, os_Exit, mbind, M_bind. reflexivity.
  - rewrite Hparse.
    destruct (getKeyvaultAuthorizer_frame w (final (parseArgs st0))) as (_ & _ & _ & [r Hr]).
    rewrite Hr. destruct r as [e | cred].
    + unfold main, getKeysClient, mbind, M_bind.
      destruct (parseArgs st0) as [o1 st1 tr1]. cbn [outcome final] in *. subst o1.
      unfold fmt_Print, tell. reduce_run.
      destruct (getKeyvaultAuthorizer w st1) as [o2 st2 tr2]. cbn [outcome] in Hr. subst o2.
      unfold mret, M_ret, log_Fatalf, tell, os_Exit, mbind, M_bind. reflexivity.
    + destruct (main_run w st0 Hparse (ex_intro _ cred Hr) Hvalues) as (Hout & _).
      destruct (main w st0) as [o s t]. cbn [outcome] in Hout. subst o. reflexivity.
Qed.

Lemma program_exit_status_witness :
  values_present calm_world /\
  exit_status (program calm_world (boot env_full ∅)) = 0 /\
  exit_status (program calm_world (boot ∅ ∅)) = 1.
Proof.
  assert (Hv : values_present calm_world).
  { intros n base name version bundle [= <-]. discriminate. }
  split; [exact Hv |]. split.
  - rewrite (program_exit_status calm_world (boot env_full ∅) Hv). vm_compute. reflexivity.
  - rewrite (program_exit_status calm_world (boot ∅ ∅) Hv). vm_compute. reflexivity.
Defined.
